(** * A shallow embedding of [app.py]

    The Flask application of the repository, a password-protected gateway
    that hands a YouTube URL to yt-dlp and serves the resulting file, is
    modelled here as pure functions and as state-passing handlers over an
    explicit world (file system, pending-download table, log of extractor
    calls).  The definitions follow [src/app.py] function by function and
    keep its names. *)

From Stdlib Require Import NArith String Ascii List Bool Lia.
From stdpp Require Import base option list gmap.

(** ** Python strings

    A Python [str] is a sequence of Unicode code points; a code point is
    an [N].  [py] turns an ASCII literal into such a sequence. *)

Abbreviation str := (list N).

(** The metadata record of the extractor: a [dict] whose values are [None]
    or a [str]. *)
Abbreviation info_dict := (gmap str (option str)).

Definition py (s : string) : str := map N_of_ascii (list_ascii_of_string s).

(** [if info:] on [None] or a [dict]. *)
Definition info_truthy (info : option info_dict) : bool :=
  match info with Some d => negb (bool_decide (d = ∅)) | None => false end.

(** [d.get(key)] *)
Definition dict_get (d : info_dict) (key : str) : option str := mjoin (d !! key).

(** Truthiness of a [str] ([if s:]) and of an optional one ([None] and
    the empty string are falsy). *)
Definition truthy (s : str) : bool :=
  match s with [] => false | _ :: _ => true end.

Definition truthy_opt (o : option str) : bool :=
  match o with Some s => truthy s | None => false end.

(** [a or b] on values that are [None] or a [str]. *)
Definition py_or (a b : option str) : option str :=
  if truthy_opt a then a else b.

(** [str(x)] as an f-string prints it. *)
Definition fmt (o : option str) : str :=
  match o with Some s => s | None => py "None" end.

Definition str_eqb (a b : str) : bool := bool_decide (a = b).

(** [s.startswith(p)] *)
Fixpoint startswith (p s : str) : bool :=
  match p, s with
  | [], _ => true
  | c :: p', x :: s' => (x =? c)%N && startswith p' s'
  | _ :: _, [] => false
  end.

(** [s.replace(c, by)] for a needle [c] of one character. *)
Definition replace1 (c : N) (by_ : str) (s : str) : str :=
  flat_map (fun x => if (x =? c)%N then by_ else [x]) s.

(** [str.isspace] on one code point, which is also what [str.strip] removes
    and what [\s] matches in a [str] pattern. *)
Definition isspace (c : N) : bool :=
  ((9 <=? c) && (c <=? 13) || (28 <=? c) && (c <=? 32) ||
   (c =? 133) || (c =? 160) || (c =? 5760) ||
   (8192 <=? c) && (c <=? 8202) || (c =? 8232) || (c =? 8233) ||
   (c =? 8239) || (c =? 8287) || (c =? 12288))%N.

Fixpoint lstrip (s : str) : str :=
  match s with
  | [] => []
  | x :: t => if isspace x then lstrip t else s
  end.

Definition rstrip (s : str) : str := rev (lstrip (rev s)).

Definition strip (s : str) : str := rstrip (lstrip s).

(** ** The regular expressions of the [re] module, as far as the three
    patterns of the program use them *)

Inductive regex : Type :=
| Eps                                  (* the empty pattern *)
| Lit (c : N)                          (* a literal character *)
| In (ranges : list (N * N))           (* a class [[a-b...]] *)
| DotStar                              (* [.*], greedy *)
| WordBoundary                         (* [\b] *)
| Cat (r1 r2 : regex)
| Alt (r1 r2 : regex)                  (* [r1|r2], [r1] tried first *)
| Group (n : nat) (r : regex)          (* the n-th capturing group *)
| Repeat (n : nat) (r : regex).        (* [r{n}] *)

(** A literal string is the sequence of its characters. *)
Definition Lits (l : str) : regex :=
  fold_right (fun c r => Cat (Lit c) r) Eps l.

Definition Str (s : string) : regex := Lits (py s).

(** Patterns that capture nothing. *)
Fixpoint group_free (r : regex) : bool :=
  match r with
  | Group _ _ => false
  | Cat r1 r2 | Alt r1 r2 => group_free r1 && group_free r2
  | Repeat _ r1 => group_free r1
  | _ => true
  end.

Definition in_ranges (ranges : list (N * N)) (x : N) : bool :=
  existsb (fun '(lo, hi) => (lo <=? x) && (x <=? hi))%N ranges.

(** Under [re.IGNORECASE] a character of the subject stands for itself and
    for the ASCII letters it folds to: the other case of an ASCII letter,
    and for the four letters U+0130, U+0131, U+017F and U+212A the letters
    i, s and k. *)
Definition ascii_fold (x : N) : list N :=
  (if (65 <=? x) && (x <=? 90) then [x + 32]
   else if (97 <=? x) && (x <=? 122) then [x - 32]
   else if (x =? 304) || (x =? 305) then [105; 73]
   else if (x =? 383) then [115; 83]
   else if (x =? 8490) then [107; 75]
   else [])%N.

Record mstate : Type := MState {
  prev : option N;                     (* the character before the position *)
  rest : str;                          (* the subject from the position on *)
  groups : gmap nat str                (* the groups captured so far *)
}.

(** The character before the position reached after reading [l]. *)
Definition prev_after (p : option N) (l : str) : option N :=
  from_option Some p (last l).

(** What a group captured: the characters between two positions. *)
Definition consumed (before after : str) : str :=
  take (length before - length after) before.

Definition ascii_isalnum (c : N) : bool :=
  ((48 <=? c) && (c <=? 57) || (65 <=? c) && (c <=? 90) ||
   (97 <=? c) && (c <=? 122))%N.

(** ** Files, requests, responses

    What the handlers read and change is gathered in a [World].  Paths are
    the three kinds the program handles: the persisted cookie file, a file
    [tempfile.NamedTemporaryFile] made, and a file in a directory
    [tempfile.mkdtemp] made.  Fresh names come from a counter. *)

Abbreviation blob := (list N).

Inductive path : Type :=
| PERSISTENT_COOKIE_PATH
| TempFile (n : nat)
| OutFile (dir : nat) (i : nat).

#[global] Instance path_eq_dec : EqDecision path.
Proof. solve_decision. Defined.

#[global] Instance path_countable : Countable path.
Proof.
  refine (inj_countable'
    (fun p => match p with
              | PERSISTENT_COOKIE_PATH => inl tt
              | TempFile n => inr (inl n)
              | OutFile d i => inr (inr (d, i))
              end)
    (fun x => match x with
              | inl _ => PERSISTENT_COOKIE_PATH
              | inr (inl n) => TempFile n
              | inr (inr (d, i)) => OutFile d i
              end) _).
  intros p. destruct p; reflexivity.
Defined.

(** The options object handed to [YoutubeDL]. *)
Record postprocessor : Type := {
  key : str;
  preferredcodec : str;
  preferredquality : str
}.

Record ydl_opts : Type := {
  outtmpl : nat;                       (* the directory of [out.%(ext)s] *)
  quiet : bool;
  no_warnings : bool;
  cookiefile : option path;
  playlist_items : option str;
  format : str;
  postprocessors : list postprocessor;
  merge_output_format : option str
}.

(** What a call of [extract_info] does: it leaves files in the output
    directory and returns a metadata record, or raises. *)
Inductive ydl_outcome : Type :=
| YdlRaises (outputs : list blob)
| YdlReturns (info : option info_dict) (outputs : list blob).

Record World : Type := {
  fs : gmap path blob;                         (* the regular files *)
  _PENDING_DOWNLOADS : gmap str (path * str);
  tmp_counter : nat;                           (* the next fresh temporary name *)
  ydl_calls : list (str * ydl_opts);           (* the calls of [extract_info] so far *)
  session_authenticated : bool                 (* [session.get("authenticated")] *)
}.

(** What the environment decides during one request. *)
Record Env : Type := {
  ydl : ydl_outcome;                   (* the outcome of the extraction *)
  copy_raises : bool;                  (* [makedirs] or [copy2] raises [OSError],
                                          before anything is written *)
  unlink_raises : bool;                (* [unlink] raises [OSError] *)
  token_urlsafe : str                  (* [secrets.token_urlsafe(16)] *)
}.

Record FileStorage : Type := { filename : str; stream : blob }.

Record Request : Type := {
  method : str;
  endpoint : option str;
  url : str;
  form : gmap str str;
  args : gmap str str;
  files : gmap str FileStorage;
  view_args : gmap str str
}.

(** A URL is what [url_for] builds or a string. *)
Inductive location : Type :=
| url_for (endpoint : str) (values : list (str * str))
| Location (s : str).

Inductive jvalue : Type :=
| JStr (s : str)
| JUrl (l : location).

Inductive Response : Type :=
| jsonify (body : list (str * jvalue)) (status : nat)
| redirect (l : location)
| render_template (name : str) (context : list (str * str)) (status : nat)
| Stream (file : path) (content_disposition : str) (content_length : nat).

Definition isfile (w : World) (p : path) : bool := bool_decide (is_Some (fs w !! p)).

Definition with_fs (f : gmap path blob -> gmap path blob) (w : World) : World :=
  {| fs := f (fs w); _PENDING_DOWNLOADS := _PENDING_DOWNLOADS w;
     tmp_counter := tmp_counter w; ydl_calls := ydl_calls w;
     session_authenticated := session_authenticated w |}.

Definition with_pending (f : gmap str (path * str) -> gmap str (path * str))
    (w : World) : World :=
  {| fs := fs w; _PENDING_DOWNLOADS := f (_PENDING_DOWNLOADS w);
     tmp_counter := tmp_counter w; ydl_calls := ydl_calls w;
     session_authenticated := session_authenticated w |}.

Definition with_session (b : bool) (w : World) : World :=
  {| fs := fs w; _PENDING_DOWNLOADS := _PENDING_DOWNLOADS w;
     tmp_counter := tmp_counter w; ydl_calls := ydl_calls w;
     session_authenticated := b |}.

(** A fresh temporary name. *)
Definition mktemp (w : World) : nat * World :=
  (tmp_counter w,
   {| fs := fs w; _PENDING_DOWNLOADS := _PENDING_DOWNLOADS w;
      tmp_counter := S (tmp_counter w); ydl_calls := ydl_calls w;
      session_authenticated := session_authenticated w |}).

Definition log_call (u : str) (o : ydl_opts) (w : World) : World :=
  {| fs := fs w; _PENDING_DOWNLOADS := _PENDING_DOWNLOADS w;
     tmp_counter := tmp_counter w; ydl_calls := ydl_calls w ++ [(u, o)];
     session_authenticated := session_authenticated w |}.

Definition ydl_outputs (o : ydl_outcome) : list blob :=
  match o with YdlRaises outputs | YdlReturns _ outputs => outputs end.

(** The extraction succeeds: a truthy record and at least one file. *)
Definition ydl_succeeds (o : ydl_outcome) : bool :=
  match o with
  | YdlReturns info (_ :: _) => info_truthy info
  | _ => false
  end.

(** The extractor leaves its files in the output directory. *)
Fixpoint write_outputs (dir i : nat) (outputs : list blob)
    (m : gmap path blob) : gmap path blob :=
  match outputs with
  | [] => m
  | b :: t => write_outputs dir (S i) t (<[OutFile dir i := b]> m)
  end.

(** [shutil.copy2(src, dst)]; a missing source is an [OSError], which the
    caller swallows. *)
Definition copy2 (src dst : path) (m : gmap path blob) : gmap path blob :=
  match m !! src with
  | Some b => <[dst := b]> m
  | None => m
  end.

(** ** Start-up

    What [_load_password] reads: the environment, and the text of the
    password file when it is a regular file. *)
Record Startup : Type := {
  environ : gmap str str;              (* [os.environ] *)
  _PASSWORD_FILE : str;                (* the path, as the messages print it *)
  password_file : option str           (* [f.read()]; [None]: not a regular file *)
}.

(** A call returns or raises [RuntimeError]. *)
Inductive outcome (A : Type) : Type :=
| Return (a : A)
| RuntimeError (msg : str).

Arguments Return {A} a.
Arguments RuntimeError {A} msg.

(** ** Generators

    The body of a streamed response is a generator: not yet started, or
    suspended at its [yield] with the file open, or finished.  A call of
    [next] yields a chunk, or ends the iteration, or lets the error of
    [open] through. *)
Inductive generator : Type :=
| Created (file : path)
| Suspended (file : path) (unread : blob)
| Closed.

Inductive signal : Type :=
| Yield (chunk : blob)
| StopIteration
| FileNotFoundError.

(** ** Sample values, for the instances at the end *)

(** A table that calls no code point from 128 on alphanumeric; the ASCII
    inputs below never read it. *)
Definition ascii_only : N -> bool := fun _ => false.

Definition sample_world : World :=
  {| fs := {[PERSISTENT_COOKIE_PATH := py "old"]};
     _PENDING_DOWNLOADS := {[py "tok" := (OutFile 0 0, py "video.mp4")]};
     tmp_counter := 1;
     ydl_calls := [];
     session_authenticated := false |}.

Definition sample_env : Env :=
  {| ydl := YdlReturns (Some {[py "id" := Some (py "dQw4w9WgXcQ")]}) [py "media"];
     copy_raises := false;
     unlink_raises := false;
     token_urlsafe := py "t0k3n" |}.

Definition sample_request (u : string) : Request :=
  {| method := py "POST";
     endpoint := Some (py "download_video");
     url := py "http://localhost/ddddd/vvvvv";
     form := {[py "url" := py u]};
     args := ∅;
     files := {[py "cookies" := {| filename := py "cookies.txt"; stream := py "new" |}]};
     view_args := ∅ |}.

Definition sample_deferred (u : string) : Request :=
  {| method := py "POST";
     endpoint := Some (py "download_audio");
     url := py "http://localhost/ddddd/aaaaa";
     form := <[py "return_url" := py "1"]> {[py "url" := py u]};
     args := ∅;
     files := ∅;
     view_args := ∅ |}.

Definition sample_get (ep : string) : Request :=
  {| method := py "GET";
     endpoint := Some (py ep);
     url := py "http://localhost/";
     form := ∅;
     args := ∅;
     files := ∅;
     view_args := {[py "token" := py "tok"]} |}.

(** A world just after start-up, the session logged in; a world in which a
    file waits for its token; a login request; a start-up with a password
    file holding one line. *)
Definition sample_started : World :=
  {| fs := ∅;
     _PENDING_DOWNLOADS := ∅;
     tmp_counter := 0;
     ydl_calls := [];
     session_authenticated := true |}.

Definition sample_waiting : World :=
  {| fs := {[OutFile 0 0 := py "media"]};
     _PENDING_DOWNLOADS := {[py "tok" := (OutFile 0 0, py "video.mp4")]};
     tmp_counter := 1;
     ydl_calls := [];
     session_authenticated := true |}.

Definition sample_login : Request :=
  {| method := py "POST";
     endpoint := Some (py "login");
     url := py "http://localhost/login";
     form := {[py "password" := py "hunter2" ++ [10%N]]};
     args := ∅;
     files := ∅;
     view_args := ∅ |}.

Definition sample_startup : Startup :=
  {| environ := {[py "APP_PASSWORD" := py "  "]};
     _PASSWORD_FILE := py "/app/.secrets/password";
     password_file := Some (py "hunter2" ++ [10%N]) |}.

Definition sample_hash : str -> bool := fun p => bool_decide (p = py "hunter2").

(** An extraction that raises after it has written part of a file. *)
Definition sample_failing : Env :=
  {| ydl := YdlRaises [py "part"];
     copy_raises := false;
     unlink_raises := false;
     token_urlsafe := py "t0k3n" |}.

Section App.

(** [str.isalnum] on the code points from 128 on: the table of the Unicode
    database the interpreter was built with.  The program reads it only
    through [\b]. *)
Variable unicode_isalnum : N -> bool.

(** [\w]: alphanumeric or underscore. *)
Definition is_word (c : N) : bool :=
  (c =? 95)%N || (if (c <? 128)%N then ascii_isalnum c else unicode_isalnum c).

Definition word_before (p : option N) : bool :=
  match p with Some c => is_word c | None => false end.

Definition word_after (s : str) : bool :=
  match s with c :: _ => is_word c | [] => false end.

Definition at_boundary (p : option N) (s : str) : bool :=
  xorb (word_before p) (word_after s).

Section Matcher.

(** The flag [re.I]. *)
Variable ignorecase : bool.

Definition lit_match (c x : N) : bool :=
  (x =? c)%N || (ignorecase && existsb (N.eqb c) (ascii_fold x)).

Definition class_match (ranges : list (N * N)) (x : N) : bool :=
  in_ranges ranges x || (ignorecase && existsb (in_ranges ranges) (ascii_fold x)).

(** The matcher backtracks as [re] does: [k] is what remains to be matched
    after the current node, and the first success in the order of the
    pattern wins.  [.] is every character but the line feed. *)
Fixpoint dotstar (k : mstate -> option (gmap nat str))
    (p : option N) (s : str) (g : gmap nat str) : option (gmap nat str) :=
  match s with
  | [] => k (MState p [] g)
  | x :: t =>
      if (x =? 10)%N then k (MState p s g)
      else match dotstar k (Some x) t g with
           | Some m => Some m
           | None => k (MState p s g)
           end
  end.

Fixpoint rmatch (r : regex) (k : mstate -> option (gmap nat str))
    (s : mstate) : option (gmap nat str) :=
  match r with
  | Eps => k s
  | Lit c =>
      match rest s with
      | x :: t => if lit_match c x then k (MState (Some x) t (groups s)) else None
      | [] => None
      end
  | In ranges =>
      match rest s with
      | x :: t => if class_match ranges x then k (MState (Some x) t (groups s)) else None
      | [] => None
      end
  | DotStar => dotstar k (prev s) (rest s) (groups s)
  | WordBoundary => if at_boundary (prev s) (rest s) then k s else None
  | Cat r1 r2 => rmatch r1 (rmatch r2 k) s
  | Alt r1 r2 =>
      match rmatch r1 k s with
      | Some m => Some m
      | None => rmatch r2 k s
      end
  | Group n r1 =>
      rmatch r1
        (fun s1 => k (MState (prev s1) (rest s1)
                        (<[n := consumed (rest s) (rest s1)]> (groups s1)))) s
  | Repeat n r1 =>
      (fix rep (n : nat) (k : mstate -> option (gmap nat str)) :=
         match n with
         | O => k
         | S m => rmatch r1 (rep m k)
         end) n k s
  end.

(** [pattern.search(s)]: the first position, from the left, at which the
    pattern matches; the result is the match's groups. *)
Fixpoint search_from (r : regex) (p : option N) (s : str) : option (gmap nat str) :=
  match rmatch r (fun st => Some (groups st)) (MState p s ∅) with
  | Some m => Some m
  | None =>
      match s with
      | [] => None
      | x :: t => search_from r (Some x) t
      end
  end.

(** What the pattern means, as a relation: read from the state [s], the
    pattern [r] can end in the state [s'].  The matcher is checked against
    it below. *)
Fixpoint matches (r : regex) (s s' : mstate) : Prop :=
  match r with
  | Eps => s' = s
  | Lit c =>
      exists x t, rest s = x :: t /\ lit_match c x = true /\
                  s' = MState (Some x) t (groups s)
  | In ranges =>
      exists x t, rest s = x :: t /\ class_match ranges x = true /\
                  s' = MState (Some x) t (groups s)
  | DotStar =>
      exists l t, rest s = l ++ t /\ Forall (fun x => x <> 10%N) l /\
                  s' = MState (prev_after (prev s) l) t (groups s)
  | WordBoundary => at_boundary (prev s) (rest s) = true /\ s' = s
  | Cat r1 r2 => exists s1, matches r1 s s1 /\ matches r2 s1 s'
  | Alt r1 r2 => matches r1 s s' \/ matches r2 s s'
  | Group n r1 =>
      exists s1, matches r1 s s1 /\
                 s' = MState (prev s1) (rest s1)
                        (<[n := consumed (rest s) (rest s1)]> (groups s1))
  | Repeat n r1 =>
      (fix iter (n : nat) (s : mstate) : Prop :=
         match n with
         | O => s' = s
         | S m => exists s1, matches r1 s s1 /\ iter m s1
         end) n s
  end.

End Matcher.

Record Pattern : Type := Compile { pat_regex : regex; pat_ignorecase : bool }.

Definition re_search (p : Pattern) (s : str) : option (gmap nat str) :=
  search_from (pat_ignorecase p) (pat_regex p) None s.

(** [m.group(n)] *)
Definition group (m : gmap nat str) (n : nat) : option str := m !! n.

(** ** The patterns *)

(** [[a-zA-Z0-9_-]] *)
Definition ID_RANGES : list (N * N) := [(97, 122); (65, 90); (48, 57); (95, 95); (45, 45)]%N.

Definition ID_CHAR : regex := In ID_RANGES.

(** The characters an id is made of, as the patterns (compiled with [re.I])
    read them. *)
Definition is_id_char (x : N) : Prop := class_match true ID_RANGES x = true.

Definition YT_WATCH_RE : Pattern :=
  Compile
    (Alt (Cat (Str "youtube.com/watch?")
           (Cat DotStar (Cat WordBoundary (Cat (Str "v=") (Group 1 (Repeat 11 ID_CHAR))))))
      (Alt (Cat (Str "youtu.be/") (Group 2 (Repeat 11 ID_CHAR)))
           (Cat (Str "youtube.com/shorts/") (Group 3 (Repeat 11 ID_CHAR)))))
    true.

Definition YT_PLAYLIST_RE : Pattern :=
  Compile
    (Cat (Str "youtube.com/playlist?") (Cat DotStar (Cat WordBoundary (Str "list="))))
    true.

Definition YT_VALID_RE : Pattern :=
  Compile
    (Alt (Cat (Str "youtube.com/") (Alt (Str "watch?") (Str "shorts/")))
      (Alt (Str "youtu.be/") (Str "youtube.com/playlist?")))
    true.

(** ** URL validation and normalisation *)

Definition _normalize_youtube_url (url : str) : option str :=
  if negb (truthy url) || negb (truthy (strip url)) then None
  else
    let url := strip url in
    if bool_decide (is_Some (re_search YT_PLAYLIST_RE url)) then None
    else
      match re_search YT_WATCH_RE url with
      | Some m =>
          let video_id := py_or (group m 1) (py_or (group m 2) (group m 3)) in
          Some (py "https://www.youtube.com/watch?v=" ++ fmt video_id)
      | None => Some url
      end.

Definition _is_playlist_url (url : str) : bool :=
  if negb (truthy url) || negb (truthy (strip url)) then false
  else bool_decide (is_Some (re_search YT_PLAYLIST_RE (strip url))).

Definition _is_youtube_url (url : str) : bool :=
  if negb (truthy url) || negb (truthy (strip url)) then false
  else bool_decide (is_Some (re_search YT_VALID_RE (strip url))).

(** Returns [(url_to_use, error_message)]. *)
Definition _prepare_url (url : str) : option str * option str :=
  let url := strip url in
  if negb (truthy url) then (None, Some (py "Please enter a URL."))
  else if negb (_is_youtube_url url) then (None, Some (py "Please enter a valid YouTube URL."))
  else if _is_playlist_url url then (Some url, None)
  else
    let normalized := _normalize_youtube_url url in
    (Some (if truthy_opt normalized then fmt normalized else url), None).

Definition _video_id_from_url (url : str) : option str :=
  if negb (truthy url) then None
  else
    match re_search YT_WATCH_RE (strip url) with
    | Some m => py_or (group m 1) (py_or (group m 2) (group m 3))
    | None => None
    end.

(** ** File names *)

(** [re.sub(r"\s+", " ", s)]: every maximal run of white space becomes one
    space; [in_run] says that the previous character was white space. *)
Fixpoint sub_ws (in_run : bool) (s : str) : str :=
  match s with
  | [] => []
  | x :: t =>
      if isspace x then (if in_run then sub_ws true t else 32%N :: sub_ws true t)
      else x :: sub_ws false t
  end.

(** The class of the characters no file name may hold: the nine of
    [< > : double-quote / backslash | ? *] and the controls 0 to 31. *)
Definition illegal_char (x : N) : bool :=
  in_ranges [(60, 60); (62, 62); (58, 58); (34, 34); (47, 47); (92, 92);
             (124, 124); (63, 63); (42, 42); (0, 31)]%N x.

Definition BANG : str := [33%N].            (* the exclamation mark *)
Definition FULLWIDTH_BANG : str := [65281%N]. (* U+FF01 *)

Definition _title_for_filename (info : option info_dict) (ext : str)
    (url_fallback_id : option str) : str :=
  let video_id := url_fallback_id in
  let video_id :=
    if negb (truthy_opt video_id) || (length (fmt video_id) <? 5)%nat
    then (if info_truthy info then dict_get (default ∅ info) (py "id") else None)
    else video_id in
  let video_id :=
    if negb (truthy_opt video_id)
       || bool_decide (strip (fmt video_id) ∈ [BANG; []])
       || (length (fmt video_id) <? 5)%nat
    then Some (py "video") else video_id in
  let video_id := strip (fmt video_id) in
  if negb (info_truthy info) then video_id ++ py "." ++ ext
  else
    let d := default ∅ info in
    let raw := strip (fmt (py_or (dict_get d (py "fulltitle"))
                             (py_or (dict_get d (py "title")) (Some [])))) in
    let raw := fold_left (fun raw c => replace1 c [] raw)
                 [33; 65281; 451; 8252]%N raw in
    let raw := strip (sub_ws false raw) in
    if negb (truthy raw) || str_eqb raw (py "NA") || (length raw <=? 1)%nat
    then video_id ++ py "." ++ ext
    else
      let safe := List.filter (fun x => negb (illegal_char x)) raw in
      let safe := strip (sub_ws false safe) in
      let safe := if truthy safe then take 200 safe else [] in
      if negb (truthy safe) || bool_decide (safe ∈ [BANG; FULLWIDTH_BANG; py "NA"])
      then video_id ++ py "." ++ ext
      else
        let name := safe ++ py "." ++ ext in
        if startswith BANG name || startswith FULLWIDTH_BANG name
        then video_id ++ py "." ++ ext
        else name.

(** ** The extraction *)

Definition _download (url : option str) (as_audio : bool)
    (cookiefile_path : option path) (e : Env) (w : World)
    : (option path * option info_dict) * World :=
  if negb (truthy_opt url) || negb (truthy (strip (fmt url))) then ((None, None), w)
  else
    let '(out_dir, w) := mktemp w in
    let opts :=
      {| outtmpl := out_dir;
         quiet := true;
         no_warnings := true;
         cookiefile :=
           match cookiefile_path with
           | Some p => if isfile w p then Some p else None
           | None => None
           end;
         playlist_items := if _is_playlist_url (fmt url) then Some (py "1") else None;
         format :=
           if as_audio then py "bestaudio/best"
           else py "bestvideo[ext=mp4]+bestaudio[ext=m4a]/best[ext=mp4]/best";
         postprocessors :=
           if as_audio
           then [ {| key := py "FFmpegExtractAudio";
                     preferredcodec := py "mp3";
                     preferredquality := py "192" |} ]
           else [];
         merge_output_format := if as_audio then None else Some (py "mp4") |} in
    let w := log_call (fmt url) opts w in
    match ydl e with
    | YdlRaises outputs => ((None, None), with_fs (write_outputs out_dir 0 outputs) w)
    | YdlReturns info outputs =>
        let w := with_fs (write_outputs out_dir 0 outputs) w in
        if negb (info_truthy info) then ((None, None), w)
        else
          match outputs with
          | [] => ((None, None), w)
          | _ :: _ => ((Some (OutFile out_dir 0), info), w)
          end
    end.

(** ** The views *)

(** [check_password_hash(_PASSWORD_HASH, password)] *)
Variable check_password_hash : str -> bool.

Definition login (req : Request) (w : World) : Response * World :=
  if str_eqb (method req) (py "GET") then
    if session_authenticated w then (redirect (url_for (py "index") []), w)
    else (render_template (py "login.html") [] 200, w)
  else
    let password := strip (fmt (py_or (form req !! py "password") (Some []))) in
    if negb (truthy password) || negb (check_password_hash password)
    then (render_template (py "login.html") [(py "error", py "Invalid password.")] 401, w)
    else
      let w := with_session true w in
      (redirect (match py_or (args req !! py "next") None with
                 | Some n => Location n
                 | None => url_for (py "index") []
                 end), w).

Definition logout (w : World) : Response * World :=
  (redirect (url_for (py "login") []), with_session false w).

Definition require_auth (req : Request) (w : World) : option Response :=
  if bool_decide (endpoint req ∈ [Some (py "login"); Some (py "logout")]) then None
  else if session_authenticated w then None
  else if str_eqb (method req) (py "GET")
  then Some (redirect (url_for (py "login") [(py "next", url req)]))
  else Some (jsonify [(py "error", JStr (py "Authentication required."));
                      (py "login_url", JUrl (url_for (py "login") []))] 401).

Definition index : Response := render_template (py "index.html") [] 200.

(** The header the two streaming responses share. *)
Definition content_disposition_of (download_name : str) : str :=
  let safe_name := replace1 34 [92; 34]%N (replace1 92 [92; 92]%N download_name) in
  py "attachment; filename=" ++ [34%N] ++ safe_name ++ [34%N].

Definition getsize (w : World) (p : path) : nat := length (default [] (fs w !! p)).

Definition _handle_download (as_audio : bool) (req : Request) (e : Env) (w : World)
    : Response * World :=
  let '(url, err) := _prepare_url (fmt (py_or (form req !! py "url") (Some []))) in
  if truthy_opt err then (jsonify [(py "error", JStr (fmt err))] 400, w)
  else
    let '(uploaded_cookie_path, w) :=
      match files req !! py "cookies" with
      | Some f =>
          if truthy (filename f)
          then let '(n, w) := mktemp w in
               (Some (TempFile n), with_fs (insert (TempFile n) (stream f)) w)
          else (None, w)
      | None => (None, w)
      end in
    let cookiefile_path :=
      match uploaded_cookie_path with
      | Some p => Some p
      | None => if isfile w PERSISTENT_COOKIE_PATH then Some PERSISTENT_COOKIE_PATH else None
      end in
    let '((path, info), w) := _download url as_audio cookiefile_path e w in
    let w :=
      match path, uploaded_cookie_path with
      | Some p, Some u =>
          if isfile w p && isfile w u
          then (if copy_raises e then w else with_fs (copy2 u PERSISTENT_COOKIE_PATH) w)
          else w
      | _, _ => w
      end in
    let w :=
      match uploaded_cookie_path with
      | Some u =>
          if isfile w u
          then (if unlink_raises e then w else with_fs (delete u) w)
          else w
      | None => w
      end in
    let failed :=
      (jsonify [(py "error", JStr (py "Download failed. Check the URL and try again."))] 400, w) in
    match path with
    | None => failed
    | Some path =>
        if negb (isfile w path) then failed
        else
          let download_name := if as_audio then py "audio.mp3" else py "video.mp4" in
          let return_url :=
            py_or (form req !! py "return_url") (args req !! py "return_url") in
          if truthy_opt return_url
             && bool_decide (strip (fmt return_url) ∈ [py "1"; py "true"; py "yes"])
          then
            let token := token_urlsafe e in
            let w := with_pending (insert token (path, download_name)) w in
            (jsonify [(py "download_url",
                       JUrl (url_for (py "download_by_token") [(py "token", token)]));
                      (py "filename", JStr download_name)] 200, w)
          else
            (Stream path (content_disposition_of download_name) (getsize w path), w)
    end.

Definition download_video := _handle_download false.

Definition download_audio := _handle_download true.

(** [_PENDING_DOWNLOADS.pop(token, None)] *)
Definition pop (token : str) (w : World) : option (path * str) * World :=
  (_PENDING_DOWNLOADS w !! token, with_pending (delete token) w).

Definition download_by_token (token : str) (w : World) : Response * World :=
  let '(entry, w) := pop token w in
  match entry with
  | None => (jsonify [(py "error", JStr (py "Download link invalid or already used."))] 404, w)
  | Some (path, download_name) =>
      if negb (isfile w path)
      then (jsonify [(py "error", JStr (py "File no longer available."))] 404, w)
      else (Stream path (content_disposition_of download_name) (getsize w path), w)
  end.

(** One request: the [before_request] hook, then the view of the endpoint.
    A request the router matched to no view is not answered here. *)
Definition dispatch_request (req : Request) (e : Env) (w : World)
    : option (Response * World) :=
  match endpoint req with
  | Some ep =>
      if str_eqb ep (py "login") then Some (login req w)
      else if str_eqb ep (py "logout") then Some (logout w)
      else if str_eqb ep (py "index") then Some (index, w)
      else if str_eqb ep (py "download_video") then Some (download_video req e w)
      else if str_eqb ep (py "download_audio") then Some (download_audio req e w)
      else if str_eqb ep (py "download_by_token")
      then Some (download_by_token (default [] (view_args req !! py "token")) w)
      else None
  | None => None
  end.

Definition full_dispatch_request (req : Request) (e : Env) (w : World)
    : option (Response * World) :=
  match require_auth req w with
  | Some r => Some (r, w)
  | None => dispatch_request req e w
  end.

(** ** Start-up *)

Definition _load_password (s : Startup) : outcome str :=
  let pw := strip (default [] (environ s !! py "APP_PASSWORD")) in
  if truthy pw then Return pw
  else
    match password_file s with
    | None =>
        RuntimeError
          (py "Password file not found: " ++ _PASSWORD_FILE s
           ++ py ". Create .secrets/password with one line (the login password).")
    | Some text =>
        let pw := strip text in
        if negb (truthy pw)
        then RuntimeError (py "Password file is empty: " ++ _PASSWORD_FILE s)
        else Return pw
    end.

(** ** The body of a streamed response

    [_stream_and_cleanup] is the same generator in [_handle_download] and in
    [download_by_token].  The file is read as it is when the generator
    opens it; [unlink_raises] says whether [os.unlink] raises [OSError] on
    a file that exists.  The directory the cleanup removes when it is empty
    is not part of the [World]. *)
Definition _CHUNK : nat := 64 * 1024.

Arguments _CHUNK : simpl never.

Definition _stream_and_cleanup (file : path) : generator := Created file.

(** The [finally] clause: [os.unlink(path)], its [OSError] swallowed. *)
Definition cleanup (file : path) (unlink_raises : bool) (w : World) : World :=
  if unlink_raises then w else with_fs (delete file) w.

(** One turn of the loop: [chunk = f.read(_CHUNK)], then [break] or
    [yield chunk]. *)
Definition read_turn (unlink_raises : bool) (file : path) (unread : blob) (w : World)
    : signal * generator * World :=
  let chunk := take _CHUNK unread in
  if negb (truthy chunk) then (StopIteration, Closed, cleanup file unlink_raises w)
  else (Yield chunk, Suspended file (drop _CHUNK unread), w).

(** [next(g)] *)
Definition next (unlink_raises : bool) (g : generator) (w : World)
    : signal * generator * World :=
  match g with
  | Created file =>
      match fs w !! file with
      | Some content => read_turn unlink_raises file content w
      | None => (FileNotFoundError, Closed, cleanup file unlink_raises w)
      end
  | Suspended file unread => read_turn unlink_raises file unread w
  | Closed => (StopIteration, Closed, w)
  end.

(** [g.close()]: a generator that never ran has no [finally] to run. *)
Definition close (unlink_raises : bool) (g : generator) (w : World)
    : generator * World :=
  match g with
  | Suspended file _ => (Closed, cleanup file unlink_raises w)
  | Created _ | Closed => (Closed, w)
  end.

(** What the server does with the body: it takes chunk after chunk, at most
    [turns] times, until the generator stops. *)
Fixpoint iterate (turns : nat) (unlink_raises : bool) (g : generator) (w : World)
    : list blob * generator * World :=
  match turns with
  | O => ([], g, w)
  | S n =>
      match next unlink_raises g w with
      | (Yield chunk, g, w) =>
          let '(chunks, g, w) := iterate n unlink_raises g w in (chunk :: chunks, g, w)
      | (_, g, w) => ([], g, w)
      end
  end.

(** ** The worlds the application can be in

    At start-up [_PENDING_DOWNLOADS] is empty; then requests are served,
    and between them the files change (streamed files are removed, other
    processes write) and other clients come with their own session. *)
Inductive reachable : World -> Prop :=
| reach_start w : _PENDING_DOWNLOADS w = ∅ -> reachable w
| reach_request w req e r w' :
    reachable w -> full_dispatch_request req e w = Some (r, w') -> reachable w'
| reach_files w f : reachable w -> reachable (with_fs f w)
| reach_session w b : reachable w -> reachable (with_session b w).

(** * The matcher

    The backtracking matcher finds a way to read a pattern exactly when the
    relation [matches] has one. *)

Lemma prev_after_cons p x l : prev_after p (x :: l) = prev_after (Some x) l.
Proof.
  unfold prev_after. rewrite last_cons. destruct (last l); reflexivity.
Qed.

Lemma prev_after_app p l1 l2 :
  prev_after p (l1 ++ l2) = prev_after (prev_after p l1) l2.
Proof.
  revert p. induction l1 as [|x l1 IH]; intros p; simpl.
  - reflexivity.
  - rewrite !prev_after_cons. apply IH.
Qed.

Lemma dotstar_sound k p s g m :
  dotstar k p s g = Some m ->
  exists l t, s = l ++ t /\ Forall (fun x => x <> 10%N) l /\
              k (MState (prev_after p l) t g) = Some m.
Proof.
  revert p. induction s as [|x t IH]; intros p H; simpl in H.
  - exists [], []. auto.
  - destruct (N.eqb_spec x 10) as [Hx|Hx].
    + exists [], (x :: t). auto.
    + destruct (dotstar k (Some x) t g) as [m'|] eqn:E.
      * injection H as ->.
        destruct (IH _ E) as (l & t' & -> & Hl & Hk).
        exists (x :: l), t'. rewrite prev_after_cons.
        repeat split; [constructor; assumption | assumption].
      * exists [], (x :: t). auto.
Qed.

Lemma dotstar_complete k p l t g :
  Forall (fun x => x <> 10%N) l ->
  is_Some (k (MState (prev_after p l) t g)) ->
  is_Some (dotstar k p (l ++ t) g).
Proof.
  revert p. induction l as [|x l IH]; intros p Hl Hk.
  - simpl. destruct t as [|y t]; simpl; [exact Hk|].
    destruct (y =? 10)%N; [exact Hk|].
    destruct (dotstar k (Some y) t g); [eauto | exact Hk].
  - inversion Hl as [|? ? Hx Hl']; subst. simpl.
    destruct (N.eqb_spec x 10) as [?|_]; [contradiction|].
    rewrite prev_after_cons in Hk.
    destruct (IH (Some x) Hl' Hk) as [m ->]. eauto.
Qed.

Section MatcherFacts.

Variable i : bool.

Lemma rmatch_sound r : forall k s m,
  rmatch i r k s = Some m ->
  exists s', matches i r s s' /\ k s' = Some m.
Proof.
  induction r as [|c|ranges| | |r1 IH1 r2 IH2|r1 IH1 r2 IH2|n r1 IH1|n r1 IH1];
    intros k s m H; simpl in H.
  - exists s. split; [reflexivity | assumption].
  - destruct (rest s) as [|x t] eqn:E; [discriminate|].
    destruct (lit_match i c x) eqn:Ec; [|discriminate].
    eexists. split; [|exact H]. exists x, t. auto.
  - destruct (rest s) as [|x t] eqn:E; [discriminate|].
    destruct (class_match i ranges x) eqn:Ec; [|discriminate].
    eexists. split; [|exact H]. exists x, t. auto.
  - destruct (dotstar_sound _ _ _ _ _ H) as (l & t & E & Hl & Hk).
    eexists. split; [|exact Hk]. exists l, t. auto.
  - destruct (at_boundary (prev s) (rest s)) eqn:E; [|discriminate].
    exists s. simpl. auto.
  - destruct (IH1 _ _ _ H) as (s1 & H1 & H').
    destruct (IH2 _ _ _ H') as (s2 & H2 & Hk).
    exists s2. split; [exists s1; auto | assumption].
  - destruct (rmatch i r1 k s) as [m'|] eqn:E.
    + destruct (IH1 _ _ _ E) as (s1 & H1 & Hk).
      exists s1. split; [left; assumption | congruence].
    + destruct (IH2 _ _ _ H) as (s2 & H2 & Hk).
      exists s2. split; [right; assumption | assumption].
  - destruct (IH1 _ _ _ H) as (s1 & H1 & Hk).
    eexists. split; [|exact Hk]. exists s1. auto.
  - revert k s H. induction n as [|n IHn]; intros k s H.
    + exists s. split; [reflexivity | assumption].
    + destruct (IH1 _ _ _ H) as (s1 & H1 & H').
      destruct (IHn _ _ H') as (s2 & H2 & Hk).
      exists s2. split; [exists s1; auto | assumption].
Qed.

Lemma rmatch_complete r : forall k s s',
  matches i r s s' -> is_Some (k s') -> is_Some (rmatch i r k s).
Proof.
  induction r as [|c|ranges| | |r1 IH1 r2 IH2|r1 IH1 r2 IH2|n r1 IH1|n r1 IH1];
    intros k s s' H Hk; simpl in H |- *.
  - subst. assumption.
  - destruct H as (x & t & -> & -> & ->). assumption.
  - destruct H as (x & t & -> & -> & ->). assumption.
  - destruct H as (l & t & -> & Hl & ->). apply dotstar_complete; assumption.
  - destruct H as [-> ->]. assumption.
  - destruct H as (s1 & H1 & H2). eapply IH1; [exact H1|]. eapply IH2; eassumption.
  - destruct H as [H|H].
    + destruct (IH1 _ _ _ H Hk) as [m ->]. eauto.
    + destruct (rmatch i r1 k s); [eauto|]. eapply IH2; eassumption.
  - destruct H as (s1 & H1 & ->). eapply IH1; [exact H1|]. exact Hk.
  - revert k s H Hk. induction n as [|n IHn]; intros k s H Hk.
    + subst. assumption.
    + destruct H as (s1 & H1 & H2). eapply IH1; [exact H1|]. eapply IHn; eassumption.
Qed.

(** A search finds a match at some position of the subject... *)
Lemma search_from_sound r : forall s p m,
  search_from i r p s = Some m ->
  exists l s0 s', s = l ++ s0 /\
    matches i r (MState (prev_after p l) s0 ∅) s' /\ groups s' = m.
Proof.
  induction s as [|x t IH]; intros p m H; simpl in H.
  - destruct (rmatch i r _ _) as [m'|] eqn:E; [|discriminate].
    destruct (rmatch_sound _ _ _ _ E) as (s' & H1 & H2).
    exists [], [], s'. repeat split; [assumption | congruence].
  - destruct (rmatch i r _ _) as [m'|] eqn:E.
    + destruct (rmatch_sound _ _ _ _ E) as (s' & H1 & H2).
      exists [], (x :: t), s'. repeat split; [assumption | congruence].
    + destruct (IH _ _ H) as (l & s0 & s' & -> & H1 & H2).
      exists (x :: l), s0, s'. rewrite prev_after_cons. auto.
Qed.

(** ... and finds one whenever some position has one. *)
Lemma search_from_complete r : forall l p s0 s',
  matches i r (MState (prev_after p l) s0 ∅) s' ->
  is_Some (search_from i r p (l ++ s0)).
Proof.
  induction l as [|x l IH]; intros p s0 s' H.
  - assert (Hm : is_Some (rmatch i r (fun st => Some (groups st)) (MState p s0 ∅))).
    { eapply rmatch_complete; [exact H | eauto]. }
    destruct Hm as [m Hm]. simpl. destruct s0; simpl; rewrite Hm; eauto.
  - simpl. destruct (rmatch i r _ _); [eauto|].
    rewrite prev_after_cons in H. eapply IH; exact H.
Qed.

Lemma matches_group_free r : forall s s',
  group_free r = true -> matches i r s s' -> groups s' = groups s.
Proof.
  induction r as [|c|ranges| | |r1 IH1 r2 IH2|r1 IH1 r2 IH2|n r1 IH1|n r1 IH1];
    intros s s' Hf H; simpl in Hf, H.
  - subst. reflexivity.
  - destruct H as (x & t & _ & _ & ->). reflexivity.
  - destruct H as (x & t & _ & _ & ->). reflexivity.
  - destruct H as (l & t & _ & _ & ->). reflexivity.
  - destruct H as [_ ->]. reflexivity.
  - apply andb_prop in Hf as [Hf1 Hf2]. destruct H as (s1 & H1 & H2).
    rewrite (IH2 _ _ Hf2 H2). apply IH1; assumption.
  - apply andb_prop in Hf as [Hf1 Hf2]. destruct H as [H|H]; auto.
  - discriminate.
  - revert s H. induction n as [|n IHn]; intros s H.
    + subst. reflexivity.
    + destruct H as (s1 & H1 & H2). rewrite (IHn _ H2). apply IH1; assumption.
Qed.

Lemma matches_Lits_app a b : forall s s',
  matches i (Lits (a ++ b)) s s' ->
  exists s1, matches i (Lits a) s s1 /\ matches i (Lits b) s1 s'.
Proof.
  induction a as [|c a IH]; intros s s' H.
  - exists s. split; [reflexivity | exact H].
  - destruct H as (s0 & H0 & H1). destruct (IH _ _ H1) as (s1 & Ha & Hb).
    exists s1. split; [exists s0; auto | assumption].
Qed.

Lemma matches_Repeat_In n ranges : forall s s',
  matches i (Repeat n (In ranges)) s s' ->
  exists l, length l = n /\ Forall (fun x => class_match i ranges x = true) l /\
            rest s = l ++ rest s' /\ groups s' = groups s.
Proof.
  induction n as [|n IH]; intros s s' H.
  - simpl in H. subst. exists []. auto.
  - destruct H as (s1 & (x & t & E & Hx & ->) & H2).
    destruct (IH _ _ H2) as (l & Hl & Hc & Er & Eg). simpl in Er, Eg.
    exists (x :: l). simpl. rewrite E, Er, Hl, Eg. auto.
Qed.

Lemma consumed_app (l t : str) : consumed (l ++ t) t = l.
Proof.
  unfold consumed. rewrite length_app.
  replace (length l + length t - length t)%nat with (length l) by lia.
  apply take_app_length.
Qed.

Lemma matches_Group_ids n k ranges s s' :
  matches i (Group n (Repeat k (In ranges))) s s' ->
  exists l, length l = k /\ Forall (fun x => class_match i ranges x = true) l /\
            groups s' = <[n := l]> (groups s).
Proof.
  intros (s1 & H1 & ->).
  destruct (matches_Repeat_In _ _ _ _ H1) as (l & Hl & Hc & Er & Eg).
  exists l. simpl. rewrite Er, consumed_app, Eg. auto.
Qed.

End MatcherFacts.

(** ** White space *)

Lemma lstrip_keeps x t : isspace x = false -> lstrip (x :: t) = x :: t.
Proof. intros H. simpl. rewrite H. reflexivity. Qed.

Lemma lstrip_head s :
  lstrip s = [] \/ exists x t, lstrip s = x :: t /\ isspace x = false.
Proof.
  induction s as [|x t IH]; simpl; [auto|].
  destruct (isspace x) eqn:E; [exact IH | right; eauto].
Qed.

Lemma lstrip_lstrip s : lstrip (lstrip s) = lstrip s.
Proof.
  destruct (lstrip_head s) as [->|(x & t & -> & H)]; [reflexivity|].
  apply lstrip_keeps, H.
Qed.

Lemma lstrip_app x l t :
  isspace x = false -> lstrip (l ++ x :: t) = lstrip l ++ x :: t.
Proof.
  intros H. induction l as [|y l IH]; simpl.
  - rewrite H. reflexivity.
  - destruct (isspace y); [exact IH | reflexivity].
Qed.

Lemma rstrip_keeps x t : isspace x = false -> rstrip (x :: t) = x :: rstrip t.
Proof.
  intros H. unfold rstrip. simpl rev.
  rewrite (lstrip_app x (rev t) [] H), rev_app_distr. reflexivity.
Qed.

Lemma rstrip_rstrip s : rstrip (rstrip s) = rstrip s.
Proof. unfold rstrip. rewrite rev_involutive, lstrip_lstrip. reflexivity. Qed.

Lemma strip_strip s : strip (strip s) = strip s.
Proof.
  unfold strip. destruct (lstrip_head s) as [->|(x & t & -> & H)]; [reflexivity|].
  rewrite (rstrip_keeps _ _ H), (lstrip_keeps _ _ H), <- (rstrip_keeps _ _ H).
  apply rstrip_rstrip.
Qed.

Lemma truthy_strip_cons x t : isspace x = false -> truthy (strip (x :: t)) = true.
Proof.
  intros H. unfold strip. rewrite (lstrip_keeps _ _ H), (rstrip_keeps _ _ H).
  reflexivity.
Qed.

Lemma truthy_nil (s : str) : truthy s = false <-> s = [].
Proof. destruct s; simpl; split; congruence. Qed.

(** ** The three patterns *)

Lemma watch_captures_id p s s' :
  matches true (pat_regex YT_WATCH_RE) (MState p s ∅) s' ->
  exists id, length id = 11%nat /\ Forall is_id_char id /\
    py_or (group (groups s') 1) (py_or (group (groups s') 2) (group (groups s') 3)) = Some id.
Proof.
  intros [H|[H|H]].
  - destruct H as (s1 & H1 & s2 & H2 & s3 & H3 & s4 & H4 & H5).
    destruct (matches_Group_ids _ _ _ _ _ _ H5) as (id & Hl & Hc & Eg).
    apply matches_group_free in H1, H2, H3, H4; try reflexivity.
    rewrite H4, H3, H2, H1 in Eg. simpl in Eg.
    exists id. repeat split; [assumption..|]. unfold group. rewrite Eg.
    rewrite lookup_insert_eq. destruct id; [discriminate | reflexivity].
  - destruct H as (s1 & H1 & H5).
    destruct (matches_Group_ids _ _ _ _ _ _ H5) as (id & Hl & Hc & Eg).
    apply matches_group_free in H1; try reflexivity.
    rewrite H1 in Eg. simpl in Eg.
    exists id. repeat split; [assumption..|]. unfold group. rewrite Eg.
    rewrite lookup_insert_ne, lookup_empty by discriminate.
    rewrite lookup_insert_eq. destruct id; [discriminate | reflexivity].
  - destruct H as (s1 & H1 & H5).
    destruct (matches_Group_ids _ _ _ _ _ _ H5) as (id & Hl & Hc & Eg).
    apply matches_group_free in H1; try reflexivity.
    rewrite H1 in Eg. simpl in Eg.
    exists id. repeat split; [assumption..|]. unfold group. rewrite Eg.
    rewrite !(lookup_insert_ne _ 3) by discriminate. rewrite lookup_empty.
    rewrite lookup_insert_eq. destruct id; [discriminate | reflexivity].
Qed.

Lemma watch_is_valid st s' :
  matches true (pat_regex YT_WATCH_RE) st s' ->
  exists s'', matches true (pat_regex YT_VALID_RE) st s''.
Proof.
  intros [H|[H|H]].
  - destruct H as (s1 & H1 & _).
    change (Str "youtube.com/watch?")
      with (Lits (py "youtube.com/" ++ py "watch?")) in H1.
    apply matches_Lits_app in H1 as (s0 & Ha & Hb).
    exists s1. left. exists s0. split; [exact Ha | left; exact Hb].
  - destruct H as (s1 & H1 & _). exists s1. right. left. exact H1.
  - destruct H as (s1 & H1 & _).
    change (Str "youtube.com/shorts/")
      with (Lits (py "youtube.com/" ++ py "shorts/")) in H1.
    apply matches_Lits_app in H1 as (s0 & Ha & Hb).
    exists s1. left. exists s0. split; [exact Ha | right; exact Hb].
Qed.

Lemma playlist_is_valid st s' :
  matches true (pat_regex YT_PLAYLIST_RE) st s' ->
  exists s'', matches true (pat_regex YT_VALID_RE) st s''.
Proof.
  intros (s1 & H1 & _). exists s1. right. right. exact H1.
Qed.

Lemma search_watch_valid s :
  is_Some (re_search YT_WATCH_RE s) -> is_Some (re_search YT_VALID_RE s).
Proof.
  intros [m H]. apply search_from_sound in H as (l & s0 & s' & -> & H & _).
  apply watch_is_valid in H as [s'' H].
  eapply search_from_complete. exact H.
Qed.

Lemma search_playlist_valid s :
  is_Some (re_search YT_PLAYLIST_RE s) -> is_Some (re_search YT_VALID_RE s).
Proof.
  intros [m H]. apply search_from_sound in H as (l & s0 & s' & -> & H & _).
  apply playlist_is_valid in H as [s'' H].
  eapply search_from_complete. exact H.
Qed.

Lemma search_watch_id s m :
  re_search YT_WATCH_RE s = Some m ->
  exists id, length id = 11%nat /\ Forall is_id_char id /\
    py_or (group m 1) (py_or (group m 2) (group m 3)) = Some id.
Proof.
  intros H. apply search_from_sound in H as (l & s0 & s' & -> & H & <-).
  eapply watch_captures_id. exact H.
Qed.

(** ** URL preparation *)

Lemma truthy_strip s : truthy (strip s) = true -> truthy s = true.
Proof. destruct s; [discriminate | reflexivity]. Qed.

Lemma is_playlist_url_eq u :
  truthy (strip u) = true ->
  _is_playlist_url u = bool_decide (is_Some (re_search YT_PLAYLIST_RE (strip u))).
Proof.
  intros H. unfold _is_playlist_url. rewrite H, (truthy_strip _ H). reflexivity.
Qed.

Lemma is_youtube_url_eq u :
  truthy (strip u) = true ->
  _is_youtube_url u = bool_decide (is_Some (re_search YT_VALID_RE (strip u))).
Proof.
  intros H. unfold _is_youtube_url. rewrite H, (truthy_strip _ H). reflexivity.
Qed.

Lemma search_watch_nil : re_search YT_WATCH_RE [] = None.
Proof. vm_compute. reflexivity. Qed.

Lemma search_valid_nil : re_search YT_VALID_RE [] = None.
Proof. vm_compute. reflexivity. Qed.

Lemma search_playlist_nil : re_search YT_PLAYLIST_RE [] = None.
Proof. vm_compute. reflexivity. Qed.

(** What [_prepare_url] returns, case by case, on the stripped input [u]. *)
Lemma prepare_url_empty url :
  strip url = [] -> _prepare_url url = (None, Some (py "Please enter a URL.")).
Proof. intros H. unfold _prepare_url. rewrite H. reflexivity. Qed.

Lemma prepare_url_invalid url :
  strip url <> [] -> re_search YT_VALID_RE (strip url) = None ->
  _prepare_url url = (None, Some (py "Please enter a valid YouTube URL.")).
Proof.
  intros Hn Hv. unfold _prepare_url.
  assert (Ht : truthy (strip url) = true).
  { destruct (strip url); [congruence | reflexivity]. }
  rewrite Ht. simpl negb. cbv iota.
  rewrite is_youtube_url_eq by (rewrite strip_strip; exact Ht).
  rewrite strip_strip, Hv.
  rewrite bool_decide_eq_false_2 by (intros [? ?]; discriminate).
  reflexivity.
Qed.

Lemma prepare_url_playlist url :
  is_Some (re_search YT_PLAYLIST_RE (strip url)) ->
  _prepare_url url = (Some (strip url), None).
Proof.
  intros Hp. unfold _prepare_url.
  assert (Ht : truthy (strip url) = true).
  { destruct (strip url); [|reflexivity].
    rewrite search_playlist_nil in Hp. destruct Hp; discriminate. }
  rewrite Ht. simpl negb. cbv iota.
  rewrite is_youtube_url_eq by (rewrite strip_strip; exact Ht).
  rewrite is_playlist_url_eq by (rewrite strip_strip; exact Ht).
  rewrite strip_strip.
  rewrite (bool_decide_eq_true_2 _ (search_playlist_valid _ Hp)).
  rewrite (bool_decide_eq_true_2 _ Hp).
  reflexivity.
Qed.

Lemma prepare_url_video url m :
  re_search YT_PLAYLIST_RE (strip url) = None ->
  re_search YT_WATCH_RE (strip url) = Some m ->
  _prepare_url url =
    (Some (py "https://www.youtube.com/watch?v="
           ++ fmt (py_or (group m 1) (py_or (group m 2) (group m 3)))), None).
Proof.
  intros Hp Hw. unfold _prepare_url.
  assert (Ht : truthy (strip url) = true).
  { destruct (strip url); [|reflexivity].
    rewrite search_watch_nil in Hw. discriminate. }
  rewrite Ht. simpl negb. cbv iota.
  rewrite is_youtube_url_eq by (rewrite strip_strip; exact Ht).
  rewrite is_playlist_url_eq by (rewrite strip_strip; exact Ht).
  unfold _normalize_youtube_url.
  rewrite !strip_strip, Ht. simpl negb. simpl orb. cbv iota.
  rewrite (bool_decide_eq_true_2 _ (search_watch_valid _ (ex_intro _ m Hw))).
  rewrite Hp, Hw.
  rewrite bool_decide_eq_false_2 by (intros [? ?]; discriminate).
  reflexivity.
Qed.

Lemma prepare_url_other url :
  strip url <> [] ->
  is_Some (re_search YT_VALID_RE (strip url)) ->
  re_search YT_PLAYLIST_RE (strip url) = None ->
  re_search YT_WATCH_RE (strip url) = None ->
  _prepare_url url = (Some (strip url), None).
Proof.
  intros Hn Hv Hp Hw. unfold _prepare_url.
  assert (Ht : truthy (strip url) = true).
  { destruct (strip url); [congruence | reflexivity]. }
  rewrite Ht. simpl negb. cbv iota.
  rewrite is_youtube_url_eq by (rewrite strip_strip; exact Ht).
  rewrite is_playlist_url_eq by (rewrite strip_strip; exact Ht).
  unfold _normalize_youtube_url.
  rewrite !strip_strip, Ht. simpl negb. simpl orb. cbv iota.
  rewrite (bool_decide_eq_true_2 _ Hv).
  rewrite Hp, Hw.
  rewrite bool_decide_eq_false_2 by (intros [? ?]; discriminate).
  simpl. rewrite Ht. reflexivity.
Qed.

(** The result of [_prepare_url] is a URL that the extractor will not take
    for empty, or a message. *)
Lemma prepare_url_cases (url : str) :
  (exists u, truthy (strip u) = true /\ _prepare_url url = (Some u, None)) \/
  (exists msg, msg <> [] /\ _prepare_url url = (None, Some msg)).
Proof.
  destruct (strip url) as [|c t] eqn:E.
  { right. exists (py "Please enter a URL."). split; [discriminate|].
    apply prepare_url_empty, E. }
  assert (Hn : strip url <> []) by (rewrite E; discriminate).
  assert (Hs : truthy (strip (strip url)) = true).
  { rewrite strip_strip, E. reflexivity. }
  destruct (re_search YT_VALID_RE (strip url)) as [mv|] eqn:Ev.
  2:{ right. exists (py "Please enter a valid YouTube URL."). split; [discriminate|].
      apply prepare_url_invalid; assumption. }
  left. destruct (re_search YT_PLAYLIST_RE (strip url)) as [mp|] eqn:Ep.
  { exists (strip url). split; [exact Hs|]. apply prepare_url_playlist.
    rewrite Ep. eauto. }
  destruct (re_search YT_WATCH_RE (strip url)) as [mw|] eqn:Ew.
  - eexists. split; [|apply (prepare_url_video _ _ Ep Ew)].
    change (py "https://www.youtube.com/watch?v=" ++ ?x)
      with (104%N :: (py "ttps://www.youtube.com/watch?v=" ++ x)).
    apply truthy_strip_cons. reflexivity.
  - exists (strip url). split; [exact Hs|].
    apply prepare_url_other; [exact Hn | rewrite Ev; eauto | exact Ep | exact Ew].
Qed.

(** The extractor is called once, with the URL it was given, and for a
    playlist URL with [playlist_items] set to 1. *)
Lemma download_logs_call u as_audio cookiefile_path e w :
  truthy (strip u) = true ->
  exists opts,
    playlist_items opts = (if _is_playlist_url u then Some (py "1") else None) /\
    ydl_calls (snd (_download (Some u) as_audio cookiefile_path e w))
      = ydl_calls w ++ [(u, opts)].
Proof.
  intros Ht. unfold _download, mktemp. cbn [fmt truthy_opt].
  rewrite Ht, (truthy_strip _ Ht). cbn [negb orb].
  eexists. split; cycle 1.
  - destruct (ydl e) as [outs|info outs]; [reflexivity|].
    destruct (info_truthy info); [|reflexivity].
    destruct outs; reflexivity.
  - reflexivity.
Qed.

(** C1: an input whose stripped form matches the single-video pattern
    (watch, youtu.be or shorts form with an id of 11 characters) is
    prepared to exactly [https://www.youtube.com/watch?v=] followed by the
    11 characters of the id the pattern captured, which is the id
    [_video_id_from_url] reads, provided [_is_playlist_url] does not hold
    of it; the two inputs of the specification normalise as it says.  But
    [_is_playlist_url] holds of watch URLs that are no playlist URLs:
    [YT_PLAYLIST_RE] is searched anywhere in the input, so a watch URL one
    of whose other parameters holds the text of a playlist URL is taken
    for a playlist URL and handed on as it is, parameters included, where
    the claim has the canonical URL of its id. *)
Theorem C1_prepare_url_single_video :
  (forall url,
     is_Some (re_search YT_WATCH_RE (strip url)) ->
     _is_playlist_url url = false ->
     exists id, length id = 11%nat /\ Forall is_id_char id /\
       _video_id_from_url url = Some id /\
       _prepare_url url
         = (Some (py "https://www.youtube.com/watch?v=" ++ id), None)) /\
  _prepare_url (py "https://youtu.be/dQw4w9WgXcQ?t=30")
    = (Some (py "https://www.youtube.com/watch?v=dQw4w9WgXcQ"), None) /\
  _prepare_url (py "https://www.youtube.com/watch?v=dQw4w9WgXcQ&list=PL123&index=3")
    = (Some (py "https://www.youtube.com/watch?v=dQw4w9WgXcQ"), None) /\
  (forall url,
     is_Some (re_search YT_WATCH_RE (strip url)) ->
     _is_playlist_url url = true ->
     _prepare_url url = (Some (strip url), None)) /\
  (let url :=
     py "https://www.youtube.com/watch?v=dQw4w9WgXcQ&u=youtube.com/playlist?list=1" in
   is_Some (re_search YT_WATCH_RE (strip url)) /\
   _video_id_from_url url = Some (py "dQw4w9WgXcQ") /\
   _is_playlist_url url = true /\
   _prepare_url url = (Some url, None) /\
   _prepare_url url
     <> (Some (py "https://www.youtube.com/watch?v=dQw4w9WgXcQ"), None)).
Proof.
  split; [|split; [vm_compute; reflexivity|split; [vm_compute; reflexivity|split]]].
  - intros url [m Hw] Hp.
    assert (Ht : truthy (strip url) = true).
    { destruct (strip url); [|reflexivity].
      rewrite search_watch_nil in Hw. discriminate. }
    rewrite (is_playlist_url_eq _ Ht) in Hp.
    apply bool_decide_eq_false_1 in Hp.
    assert (Hp' : re_search YT_PLAYLIST_RE (strip url) = None).
    { destruct (re_search YT_PLAYLIST_RE (strip url)); [|reflexivity].
      exfalso. apply Hp. eauto. }
    destruct (search_watch_id _ _ Hw) as (id & Hl & Hc & Hid).
    exists id. repeat split; [assumption..| |].
    + unfold _video_id_from_url. rewrite (truthy_strip _ Ht), Hw. exact Hid.
    + rewrite (prepare_url_video _ _ Hp' Hw), Hid. reflexivity.
  - intros url [m Hw] Hp.
    assert (Ht : truthy (strip url) = true).
    { destruct (strip url); [|reflexivity].
      rewrite search_watch_nil in Hw. discriminate. }
    rewrite (is_playlist_url_eq _ Ht) in Hp.
    apply bool_decide_eq_true_1 in Hp.
    apply prepare_url_playlist, Hp.
  - cbv zeta. split; [vm_compute; eexists; reflexivity|].
    split; [vm_compute; reflexivity|]. split; [vm_compute; reflexivity|].
    split; [vm_compute; reflexivity | vm_compute; discriminate].
Qed.


(** C10: [_prepare_url] returns a URL and no error, or no URL and an error
    message, never both and never neither; the URL and the message are not
    empty. *)
Theorem C10_prepare_url_one_of (url : str) :
  match _prepare_url url with
  | (Some u, None) => u <> []
  | (None, Some msg) => msg <> []
  | (Some _, Some _) | (None, None) => False
  end.
Proof.
  destruct (prepare_url_cases url) as [(u & Hu & E)|(msg & Hm & E)]; rewrite E.
  - intros ->. discriminate.
  - exact Hm.
Qed.

(** ** File names *)

(** C3: the function takes the id of the metadata record when the URL gave
    none, against its own documentation, and returns names the claim
    excludes: with no URL-derived id and a title that is only an
    exclamation mark, the metadata id [PLabc12345] gives [PLabc12345.mp4]
    where the claim has [video.mp4], and a metadata id that is [NA] or a
    full-width exclamation mark after three or four spaces gives [NA.mp4]
    and the full-width mark followed by [.mp4].  The example of the claim,
    with a URL-derived id, holds. *)
Theorem C3_title_for_filename_takes_info_id :
  _title_for_filename
    (Some (<[py "id" := Some (py "PLabc12345")]> {[py "title" := Some (py "!")]}))
    (py "mp4") None = py "PLabc12345.mp4" /\
  _title_for_filename
    (Some (<[py "id" := Some (py "   NA")]> {[py "title" := Some (py "!")]}))
    (py "mp4") None = py "NA.mp4" /\
  _title_for_filename
    (Some (<[py "id" := Some (py "    " ++ FULLWIDTH_BANG)]> {[py "title" := Some (py "!")]}))
    (py "mp4") None = FULLWIDTH_BANG ++ py ".mp4" /\
  _title_for_filename (Some {[py "title" := Some (py "!")]}) (py "mp4")
    (Some (py "dQw4w9WgXcQ")) = py "dQw4w9WgXcQ.mp4" /\
  _title_for_filename (Some {[py "title" := Some (py "!")]}) (py "mp3")
    (Some (py "dQw4w9WgXcQ")) = py "dQw4w9WgXcQ.mp3".
Proof. repeat split; vm_compute; reflexivity. Qed.

(** ** Tokens *)

Lemma pop_twice token w :
  pop token (snd (pop token w)) = (None, snd (pop token w)).
Proof.
  unfold pop, with_pending. simpl.
  rewrite lookup_delete_eq, delete_delete_eq. reflexivity.
Qed.

(** C4: a token is consumed once.  The first [pop] returns the entry of
    the token and removes it; a second [pop] finds nothing; and a second
    GET of [/download/<token>] in an authenticated session is answered 404
    with [Download link invalid or already used.], whatever the first
    one returned. *)
Theorem C4_token_single_use (token : str) (w : World) :
  let w1 := snd (download_by_token token w) in
  fst (pop token w) = _PENDING_DOWNLOADS w !! token /\
  _PENDING_DOWNLOADS (snd (pop token w)) !! token = None /\
  pop token (snd (pop token w)) = (None, snd (pop token w)) /\
  download_by_token token w1
    = (jsonify [(py "error", JStr (py "Download link invalid or already used."))] 404,
       w1) /\
  (forall req e e',
     endpoint req = Some (py "download_by_token") ->
     view_args req !! py "token" = Some token ->
     session_authenticated w = true ->
     exists r1,
       full_dispatch_request req e w = Some (r1, w1) /\
       full_dispatch_request req e' w1
         = Some (jsonify [(py "error",
                           JStr (py "Download link invalid or already used."))] 404, w1)).
Proof.
  intros w1.
  assert (Hsnd : w1 = snd (pop token w)).
  { subst w1. unfold download_by_token. destruct (pop token w) as [[[p n]|] w2]; simpl;
      [destruct (isfile w2 p)|]; reflexivity. }
  assert (H2 : download_by_token token w1
    = (jsonify [(py "error", JStr (py "Download link invalid or already used."))] 404,
       w1)).
  { rewrite Hsnd. unfold download_by_token at 1. rewrite pop_twice. reflexivity. }
  split; [reflexivity|]. split; [apply lookup_delete_eq|].
  split; [apply pop_twice|]. split; [exact H2|].
  intros req e e' Hep Htok Hauth.
  exists (fst (download_by_token token w)).
  assert (Hs : session_authenticated w1 = true).
  { rewrite Hsnd. exact Hauth. }
  unfold full_dispatch_request, require_auth, dispatch_request.
  rewrite Hep, Htok, Hauth, Hs. simpl default.
  split.
  - vm_compute bool_decide. vm_compute str_eqb. subst w1.
    destruct (download_by_token token w); reflexivity.
  - vm_compute bool_decide. vm_compute str_eqb. rewrite H2. reflexivity.
Qed.

(** ** The gate *)


(** ** The download handler *)

(** C8: when the URL of a download request fails validation, the handler
    answers 400 with the message of [_prepare_url], which is not empty,
    and the world is unchanged: no token is added, no file is written or
    created, no temporary name is taken and the extractor is not called. *)
Theorem C8_validation_failure_changes_nothing
    (as_audio : bool) (req : Request) (e : Env) (w : World) (msg : str) :
  snd (_prepare_url (fmt (py_or (form req !! py "url") (Some [])))) = Some msg ->
  msg <> [] /\
  _handle_download as_audio req e w = (jsonify [(py "error", JStr msg)] 400, w) /\
  let w' := snd (_handle_download as_audio req e w) in
  fs w' = fs w /\ _PENDING_DOWNLOADS w' = _PENDING_DOWNLOADS w /\
  tmp_counter w' = tmp_counter w /\ ydl_calls w' = ydl_calls w.
Proof.
  intros H.
  destruct (prepare_url_cases (fmt (py_or (form req !! py "url") (Some []))))
    as [(u & _ & E)|(m & Hm & E)]; rewrite E in H; simpl in H; [discriminate|].
  injection H as ->.
  assert (Hh : _handle_download as_audio req e w
               = (jsonify [(py "error", JStr msg)] 400, w)).
  { unfold _handle_download. rewrite E. destruct msg; [congruence | reflexivity]. }
  split; [exact Hm|]. split; [exact Hh|]. rewrite Hh. simpl. auto.
Qed.

(** The three outcomes of the download handler. *)
Lemma handle_download_outcomes
    (as_audio : bool) (req : Request) (e : Env) (w : World) :
  let name := if as_audio then py "audio.mp3" else py "video.mp4" in
  let r := fst (_handle_download as_audio req e w) in
  let w' := snd (_handle_download as_audio req e w) in
  (exists msg, r = jsonify [(py "error", JStr msg)] 400) \/
  (exists p, isfile w' p = true /\
     r = Stream p (py "attachment; filename=" ++ [34%N] ++ name ++ [34%N])
           (getsize w' p)) \/
  (exists p, isfile w' p = true /\
     r = jsonify [(py "download_url",
                   JUrl (url_for (py "download_by_token")
                           [(py "token", token_urlsafe e)]));
                  (py "filename", JStr name)] 200 /\
     _PENDING_DOWNLOADS w' !! token_urlsafe e = Some (p, name)).
Proof.
  intros name r w'. subst r w'. unfold _handle_download.
  destruct (_prepare_url _) as [u err].
  destruct (truthy_opt err); [left; eexists; reflexivity|].
  destruct (match files req !! py "cookies" with Some _ => _ | None => _ end)
    as [up w1].
  destruct (_download _ _ _ _ _) as [[path info] w2].
  destruct path as [p|]; [|left; eexists; reflexivity].
  cbv zeta.
  match goal with
  | |- context [negb (isfile ?w4 p)] => generalize w4
  end.
  intros w4. destruct (isfile w4 p) eqn:Ef; cbn [negb];
    [|left; eexists; reflexivity].
  destruct (truthy_opt _ && bool_decide _); cbn [fst snd].
  - right. right. exists p. split; [exact Ef|]. split; [reflexivity|].
    simpl. apply lookup_insert_eq.
  - right. left. exists p. split; [exact Ef|].
    subst name. destruct as_audio; reflexivity.
Qed.

(** ** The cookie file *)

Lemma write_outputs_other d outs : forall i m p,
  (forall j, p <> OutFile d j) -> write_outputs d i outs m !! p = m !! p.
Proof.
  induction outs as [|b outs IH]; intros i m p Hp; simpl; [reflexivity|].
  rewrite IH by exact Hp. apply lookup_insert_ne. intros E. exact (Hp i (eq_sym E)).
Qed.

Lemma write_outputs_below d outs : forall i m j,
  (j < i)%nat -> write_outputs d i outs m !! OutFile d j = m !! OutFile d j.
Proof.
  induction outs as [|b outs IH]; intros i m j Hj; simpl; [reflexivity|].
  rewrite IH by lia. apply lookup_insert_ne. intros E. injection E as E. lia.
Qed.

Lemma write_outputs_first d i b outs m :
  write_outputs d i (b :: outs) m !! OutFile d i = Some b.
Proof. simpl. rewrite write_outputs_below by lia. apply lookup_insert_eq. Qed.

Lemma ydl_succeeds_outputs o :
  ydl_succeeds o = true -> exists b t, ydl_outputs o = b :: t.
Proof.
  destruct o as [outs|info [|b t]]; simpl; try discriminate. eauto.
Qed.

Lemma download_spec u as_audio c e w :
  truthy (strip u) = true ->
  fst (fst (_download (Some u) as_audio c e w))
    = (if ydl_succeeds (ydl e) then Some (OutFile (tmp_counter w) 0) else None) /\
  fs (snd (_download (Some u) as_audio c e w))
    = write_outputs (tmp_counter w) 0 (ydl_outputs (ydl e)) (fs w) /\
  _PENDING_DOWNLOADS (snd (_download (Some u) as_audio c e w)) = _PENDING_DOWNLOADS w.
Proof.
  intros Ht. unfold _download, mktemp. cbn [fmt truthy_opt].
  rewrite Ht, (truthy_strip _ Ht). cbn [negb orb].
  destruct (ydl e) as [outs|info [|b t]]; cbn [ydl_succeeds ydl_outputs];
    try destruct (info_truthy info); repeat split; reflexivity.
Qed.

Lemma bool_decide_is_Some {A} (x : A) : bool_decide (is_Some (Some x)) = true.
Proof. apply bool_decide_eq_true_2. eauto. Qed.

Lemma bool_decide_is_None {A} : bool_decide (is_Some (@None A)) = false.
Proof. apply bool_decide_eq_false_2. intros [? ?]. discriminate. Qed.

Ltac fs_eval Hfs :=
  repeat first
    [ progress (unfold isfile, getsize, with_fs, with_pending, copy2;
                cbn [fs _PENDING_DOWNLOADS tmp_counter fst snd andb negb])
    | progress cbv beta iota
    | rewrite Hfs
    | rewrite lookup_insert_eq
    | rewrite lookup_delete_eq
    | rewrite lookup_insert_ne by discriminate
    | rewrite lookup_delete_ne by discriminate
    | rewrite write_outputs_first
    | rewrite write_outputs_other by (intros; discriminate)
    | rewrite bool_decide_is_Some
    | rewrite bool_decide_is_None ].

(** The handler on a valid URL, evaluated: the files it leaves and the
    response it gives. *)
Lemma handle_download_eval
    (as_audio : bool) (req : Request) (e : Env) (w : World) (u : str) :
  _prepare_url (fmt (py_or (form req !! py "url") (Some []))) = (Some u, None) ->
  let n := tmp_counter w in
  let outs := ydl_outputs (ydl e) in
  let ok := ydl_succeeds (ydl e) in
  let up :=
    match files req !! py "cookies" with
    | Some f => if truthy (filename f) then Some f else None
    | None => None
    end in
  let d := match up with Some _ => S n | None => n end in
  let m1 := match up with Some f => <[TempFile n := stream f]> (fs w) | None => fs w end in
  let m2 := write_outputs d 0 outs m1 in
  let m3 :=
    match up with
    | Some f => if ok && negb (copy_raises e)
                then <[PERSISTENT_COOKIE_PATH := stream f]> m2 else m2
    | None => m2
    end in
  let m4 :=
    match up with
    | Some f => if unlink_raises e then m3 else delete (TempFile n) m3
    | None => m3
    end in
  let name := if as_audio then py "audio.mp3" else py "video.mp4" in
  let return_url := py_or (form req !! py "return_url") (args req !! py "return_url") in
  fs (snd (_handle_download as_audio req e w)) = m4 /\
  fst (_handle_download as_audio req e w)
    = (if ok then
         if truthy_opt return_url
            && bool_decide (strip (fmt return_url) ∈ [py "1"; py "true"; py "yes"])
         then jsonify [(py "download_url",
                        JUrl (url_for (py "download_by_token")
                                [(py "token", token_urlsafe e)]));
                       (py "filename", JStr name)] 200
         else Stream (OutFile d 0) (content_disposition_of name)
                (length (default ([] : blob) (head outs)))
       else jsonify [(py "error",
                      JStr (py "Download failed. Check the URL and try again."))] 400).
Proof.
  intros Hprep n outs ok up d m1 m2 m3 m4 name return_url.
  assert (Ht : truthy (strip u) = true).
  { destruct (prepare_url_cases (fmt (py_or (form req !! py "url") (Some []))))
      as [(u' & Hu & E)|(msg & _ & E)]; rewrite E in Hprep; congruence. }
  unfold _handle_download. rewrite Hprep. cbn [truthy_opt].
  subst up return_url name. destruct (files req !! py "cookies") as [f|].
  1: destruct (truthy (filename f)).
  all: unfold mktemp;
    match goal with |- context [_download (Some ?u0) ?a ?c ?e0 ?w1] =>
      pose proof (download_spec u0 a c e0 w1 Ht) as (Hp & Hfs & _);
      destruct (_download (Some u0) a c e0 w1) as [[path info] w2]
    end;
    cbn [fst snd fs tmp_counter with_fs] in Hp, Hfs; subst path;
    subst m4 m3 m2 m1 d ok outs; fold n in Hfs |- *;
    destruct (ydl_succeeds (ydl e)) eqn:Hok;
    [ destruct (ydl_succeeds_outputs _ Hok) as (b & t & Eo); rewrite Eo in Hfs |- * | ];
    destruct (copy_raises e), (unlink_raises e);
    try destruct (truthy_opt _ && bool_decide _);
    fs_eval Hfs; split; reflexivity.
Qed.

(** C9: a download request with a valid URL whose extraction succeeds is
    answered with the file under a fixed name, [audio.mp3] for audio and
    [video.mp4] for video: when delivery is deferred, with the 200 JSON
    body whose [filename] field is that name, the file stored under the
    token with that name; otherwise with the stream of the file whose
    [Content-Disposition] header carries that name.  The answer does not
    depend on the metadata record the extraction returned nor on the URL:
    a request with another valid URL, served by an extraction that
    succeeds with another record, is answered in the same way.  Every
    request the handler does not answer in one of these two ways it
    answers with the 400 error.  [_title_for_filename] is not applied: it
    derives another name from a record with a title, and the name the
    handler gives is the fixed one for every record. *)
Theorem C9_fixed_download_name
    (as_audio : bool) (req : Request) (e : Env) (w : World) :
  let name := if as_audio then py "audio.mp3" else py "video.mp4" in
  let r := fst (_handle_download as_audio req e w) in
  let w' := snd (_handle_download as_audio req e w) in
  let return_url := py_or (form req !! py "return_url") (args req !! py "return_url") in
  let deferred :=
    truthy_opt return_url
    && bool_decide (strip (fmt return_url) ∈ [py "1"; py "true"; py "yes"]) in
  (forall u,
     _prepare_url (fmt (py_or (form req !! py "url") (Some []))) = (Some u, None) ->
     ydl_succeeds (ydl e) = true ->
     exists p, isfile w' p = true /\
       if deferred
       then r = jsonify [(py "download_url",
                          JUrl (url_for (py "download_by_token")
                                  [(py "token", token_urlsafe e)]));
                         (py "filename", JStr name)] 200 /\
            _PENDING_DOWNLOADS w' !! token_urlsafe e = Some (p, name)
       else r = Stream p (py "attachment; filename=" ++ [34%N] ++ name ++ [34%N])
                  (getsize w' p)) /\
  (forall u req' u' e',
     _prepare_url (fmt (py_or (form req !! py "url") (Some []))) = (Some u, None) ->
     _prepare_url (fmt (py_or (form req' !! py "url") (Some []))) = (Some u', None) ->
     files req' !! py "cookies" = files req !! py "cookies" ->
     form req' !! py "return_url" = form req !! py "return_url" ->
     args req' !! py "return_url" = args req !! py "return_url" ->
     ydl_succeeds (ydl e) = true -> ydl_succeeds (ydl e') = true ->
     ydl_outputs (ydl e') = ydl_outputs (ydl e) ->
     token_urlsafe e' = token_urlsafe e ->
     fst (_handle_download as_audio req' e' w) = r) /\
  match r with
  | Stream p cd _ => cd = py "attachment; filename=" ++ [34%N] ++ name ++ [34%N]
  | jsonify body status =>
      (status = 200%nat /\
       body = [(py "download_url",
                JUrl (url_for (py "download_by_token")
                        [(py "token", token_urlsafe e)]));
               (py "filename", JStr name)] /\
       exists p, _PENDING_DOWNLOADS w' !! token_urlsafe e = Some (p, name)) \/
      (status = 400%nat /\ exists msg, body = [(py "error", JStr msg)])
  | redirect _ | render_template _ _ _ => False
  end /\
  (forall fb,
     _title_for_filename (Some {[py "title" := Some (py "Never Gonna 1987")]})
       (py "mp4") fb = py "Never Gonna 1987.mp4" /\
     _title_for_filename (Some {[py "title" := Some (py "Never Gonna 1987")]})
       (py "mp3") fb = py "Never Gonna 1987.mp3").
Proof.
  intros name r w' return_url deferred.
  pose proof (handle_download_outcomes as_audio req e w) as Ho.
  cbv zeta in Ho. fold name r w' in Ho.
  split; [|split; [|split]].
  - intros u Hp Hs.
    destruct (handle_download_eval as_audio req e w u Hp) as [_ Hr].
    cbv zeta in Hr. fold name r return_url deferred in Hr. rewrite Hs in Hr.
    destruct Ho as [(msg & E)|[(p & Hf & E)|(p & Hf & E & Hl)]].
    + rewrite E in Hr. destruct deferred; discriminate.
    + exists p. split; [exact Hf|].
      destruct deferred; [rewrite E in Hr; discriminate | exact E].
    + exists p. split; [exact Hf|].
      destruct deferred; [auto | rewrite E in Hr; discriminate].
  - intros u req' u' e' Hp Hp' Hfiles Hform Hargs Hs Hs' Hout Htok.
    destruct (handle_download_eval as_audio req e w u Hp) as [_ Hr].
    destruct (handle_download_eval as_audio req' e' w u' Hp') as [_ Hr'].
    cbv zeta in Hr, Hr'. fold r in Hr.
    rewrite Hr, Hr', Hfiles, Hform, Hargs, Hs, Hs', Hout, Htok. reflexivity.
  - destruct Ho as [(msg & E)|[(p & _ & E)|(p & _ & E & Hp)]]; rewrite E.
    + right. eauto.
    + reflexivity.
    + left. eauto.
  - intros fb. split; vm_compute; reflexivity.
Qed.


(** ** More on file names *)

(** The id the function falls back to, and the two shapes of its result:
    that id, or a title that is no placeholder. *)
Lemma title_for_filename_shape (info : option info_dict) (ext : str) (fb : option str) :
  let v1 :=
    if negb (truthy_opt fb) || (length (fmt fb) <? 5)%nat
    then (if info_truthy info then dict_get (default ∅ info) (py "id") else None)
    else fb in
  let v2 :=
    if negb (truthy_opt v1) || bool_decide (strip (fmt v1) ∈ [BANG; []])
       || (length (fmt v1) <? 5)%nat
    then Some (py "video") else v1 in
  _title_for_filename info ext fb = strip (fmt v2) ++ py "." ++ ext \/
  exists safe,
    _title_for_filename info ext fb = safe ++ py "." ++ ext /\
    (safe ∉ [BANG; FULLWIDTH_BANG; py "NA"]) /\
    startswith BANG (safe ++ py "." ++ ext) = false /\
    startswith FULLWIDTH_BANG (safe ++ py "." ++ ext) = false /\
    (length safe <= 200)%nat.
Proof.
  intros v1 v2. unfold _title_for_filename. fold v1. fold v2.
  destruct (negb (info_truthy info)); [left; reflexivity|].
  match goal with |- context [strip (sub_ws false ?r)] => generalize r end.
  intros raw0. set (raw := strip (sub_ws false raw0)).
  destruct (negb (truthy raw) || str_eqb raw (py "NA") || (length raw <=? 1)%nat);
    [left; reflexivity|].
  set (safe0 := strip (sub_ws false (List.filter (fun x => negb (illegal_char x)) raw))).
  set (safe := if truthy safe0 then take 200 safe0 else []).
  destruct (negb (truthy safe)) eqn:E1; [left; reflexivity|]. cbn [orb].
  destruct (bool_decide (safe ∈ [BANG; FULLWIDTH_BANG; py "NA"])) eqn:E2;
    [left; reflexivity|].
  destruct (startswith BANG (safe ++ py "." ++ ext)) eqn:E3; [left; reflexivity|].
  destruct (startswith FULLWIDTH_BANG (safe ++ py "." ++ ext)) eqn:E4;
    [left; reflexivity|].
  right. exists safe. cbn [orb]. split; [reflexivity|].
  apply bool_decide_eq_false in E2.
  split; [exact E2|]. split; [exact E3|]. split; [exact E4|].
  subst safe. destruct (truthy safe0); [|simpl; lia].
  rewrite length_take. lia.
Qed.

Lemma startswith_app (p s : str) : startswith p (p ++ s) = true.
Proof.
  induction p as [|c p IH]; [reflexivity|]. simpl. rewrite N.eqb_refl. exact IH.
Qed.

(** The function never returns an exclamation mark followed by the
    extension, whatever it is given. *)
Theorem title_for_filename_never_bang
    (info : option info_dict) (ext : str) (fb : option str) :
  _title_for_filename info ext fb <> BANG ++ py "." ++ ext.
Proof.
  destruct (title_for_filename_shape info ext fb) as [E|(safe & E & _ & Hs & _)];
    rewrite E; clear E.
  - intros E. apply app_inv_tail in E. revert E.
    match goal with |- context [if ?c then Some (py "video") else ?v] =>
      destruct c eqn:Ec
    end.
    + vm_compute. discriminate.
    + apply orb_false_elim in Ec as [Ec _]. apply orb_false_elim in Ec as [_ Ec].
      apply bool_decide_eq_false in Ec. intros E. apply Ec. rewrite E.
      apply list_elem_of_here.
  - intros E. rewrite E, startswith_app in Hs. discriminate.
Qed.

Lemma strip_no_space (l : str) : Forall (fun c => isspace c = false) l -> strip l = l.
Proof.
  intros H. unfold strip.
  assert (Hl : forall l, Forall (fun c => isspace c = false) l -> lstrip l = l).
  { intros l' Hl'. destruct Hl' as [|x t Hx _]; [reflexivity|].
    apply lstrip_keeps, Hx. }
  rewrite (Hl _ H). unfold rstrip. rewrite Hl.
  - apply rev_involutive.
  - apply Forall_rev, H.
Qed.

Lemma in_ranges_ID (c : N) :
  in_ranges ID_RANGES c = true -> (45 <= c <= 122)%N.
Proof.
  unfold in_ranges, ID_RANGES. cbn [existsb].
  rewrite !orb_true_iff, !andb_true_iff, !N.leb_le. lia.
Qed.

Lemma id_char_cases (c : N) :
  is_id_char c -> (45 <= c <= 122)%N \/ c ∈ [304; 305; 383; 8490]%N.
Proof.
  unfold is_id_char, class_match. rewrite orb_true_iff. intros [H|H].
  { left. apply in_ranges_ID, H. }
  cbn [andb] in H. unfold ascii_fold in H.
  destruct ((65 <=? c) && (c <=? 90))%N eqn:E1.
  { apply andb_true_iff in E1 as [?%N.leb_le ?%N.leb_le]. left. lia. }
  destruct ((97 <=? c) && (c <=? 122))%N eqn:E2.
  { apply andb_true_iff in E2 as [?%N.leb_le ?%N.leb_le]. left. lia. }
  destruct ((c =? 304) || (c =? 305))%N eqn:E3.
  { apply orb_true_iff in E3 as [->%N.eqb_eq| ->%N.eqb_eq]; right; repeat constructor. }
  destruct (c =? 383)%N eqn:E4.
  { apply N.eqb_eq in E4 as ->. right. repeat constructor. }
  destruct (c =? 8490)%N eqn:E5.
  { apply N.eqb_eq in E5 as ->. right. repeat constructor. }
  discriminate.
Qed.

Lemma id_char_no_space (c : N) : is_id_char c -> isspace c = false.
Proof.
  intros H. apply id_char_cases in H as [H|H].
  - unfold isspace.
    repeat match goal with
           | |- context [(?a <=? ?b)%N] =>
               first [ rewrite (proj2 (N.leb_le a b)) by lia
                     | rewrite (proj2 (N.leb_gt a b)) by lia ]
           | |- context [(?a =? ?b)%N] =>
               rewrite (proj2 (N.eqb_neq a b)) by lia
           end.
    reflexivity.
  - rewrite !elem_of_cons, elem_of_nil in H.
    destruct H as [->|[->|[->|[->|[]]]]]; reflexivity.
Qed.

Lemma video_id_from_url_id (url id : str) :
  _video_id_from_url url = Some id -> length id = 11%nat /\ Forall is_id_char id.
Proof.
  unfold _video_id_from_url. destruct (negb (truthy url)); [discriminate|].
  destruct (re_search YT_WATCH_RE (strip url)) as [m|] eqn:E; [|discriminate].
  destruct (search_watch_id _ _ E) as (id' & Hl & Hc & ->).
  intros [= <-]. auto.
Qed.

(** [_video_id_from_url] returns nothing or an id: 11 characters of the
    id alphabet. *)
Theorem video_id_from_url_shape (url : str) :
  match _video_id_from_url url with
  | Some id => length id = 11%nat /\ Forall is_id_char id
  | None => True
  end.
Proof.
  destruct (_video_id_from_url url) as [id|] eqn:E; [|exact I].
  apply (video_id_from_url_id url), E.
Qed.

(** With an id that [_video_id_from_url] read from the URL, the function
    returns that id with the extension, or a title that is no placeholder
    with the extension; it returns none of the three placeholder names. *)
Theorem title_for_filename_with_url_id
    (url id : str) (info : option info_dict) (ext : str) :
  _video_id_from_url url = Some id ->
  let r := _title_for_filename info ext (Some id) in
  (r = id ++ py "." ++ ext \/
   exists safe, r = safe ++ py "." ++ ext /\
                (safe ∉ [BANG; FULLWIDTH_BANG; py "NA"])) /\
  r <> BANG ++ py "." ++ ext /\
  r <> FULLWIDTH_BANG ++ py "." ++ ext /\
  r <> py "NA" ++ py "." ++ ext.
Proof.
  intros Hid r.
  destruct (video_id_from_url_id url id Hid) as [Hl Hc].
  assert (Hstrip : strip id = id).
  { apply strip_no_space. eapply Forall_impl; [exact Hc|]. apply id_char_no_space. }
  assert (Hshape : r = id ++ py "." ++ ext \/
            exists safe, r = safe ++ py "." ++ ext /\
                         (safe ∉ [BANG; FULLWIDTH_BANG; py "NA"])).
  { subst r.
    destruct (title_for_filename_shape info ext (Some id)) as [E|(safe & E & Hn & _)].
    - left. rewrite E. cbn [truthy_opt fmt].
      assert (Ht : truthy id = true) by (destruct id; [discriminate | reflexivity]).
      assert (H5 : (length id <? 5)%nat = false) by (rewrite Hl; reflexivity).
      rewrite Ht, H5. cbn [negb orb truthy_opt fmt]. rewrite Ht, H5, Hstrip.
      rewrite bool_decide_eq_false_2.
      + cbn [negb orb fmt]. rewrite Hstrip. reflexivity.
      + rewrite !elem_of_cons, elem_of_nil.
        intros [->|[->|[]]]; discriminate.
    - right. exists safe. auto. }
  split; [exact Hshape|].
  assert (Hne : forall x, (length x <> 11)%nat -> x ∈ [BANG; FULLWIDTH_BANG; py "NA"] ->
                          r <> x ++ py "." ++ ext).
  { intros x Hx Hin E. destruct Hshape as [E'|(safe & E' & Hn)]; rewrite E' in E;
      apply app_inv_tail in E; subst; [congruence | contradiction]. }
  split; [|split]; apply Hne; try (simpl; lia); repeat constructor.
Qed.

Lemma replace1_absent (c : N) (by_ s : str) :
  Forall (fun x => x <> c) s -> replace1 c by_ s = s.
Proof.
  unfold replace1. induction 1 as [|x t Hx _ IH]; [reflexivity|].
  simpl. rewrite (proj2 (N.eqb_neq x c) Hx), IH. reflexivity.
Qed.

Lemma filter_all {A} (f : A -> bool) (l : list A) :
  Forall (fun x => f x = true) l -> List.filter f l = l.
Proof.
  induction 1 as [|x t Hx _ IH]; [reflexivity|]. simpl. rewrite Hx, IH. reflexivity.
Qed.

Lemma title_char_bounds (c : N) :
  ascii_isalnum c = true \/ c = 32%N ->
  (c = 32 \/ 48 <= c <= 57 \/ 65 <= c <= 90 \/ 97 <= c <= 122)%N.
Proof.
  unfold ascii_isalnum. rewrite !orb_true_iff, !andb_true_iff, !N.leb_le. lia.
Qed.

(** A title of ASCII letters, digits and spaces that white-space
    normalisation leaves as it is, of 2 to 200 characters and other than
    [NA], becomes the file name: the title, a dot, the extension. *)
Theorem title_for_filename_plain_title
    (d : info_dict) (ext t : str) (fb : option str) :
  py_or (dict_get d (py "fulltitle")) (py_or (dict_get d (py "title")) (Some []))
    = Some t ->
  Forall (fun c => ascii_isalnum c = true \/ c = 32%N) t ->
  strip t = t -> sub_ws false t = t ->
  (2 <= length t <= 200)%nat -> t <> py "NA" ->
  _title_for_filename (Some d) ext fb = t ++ py "." ++ ext.
Proof.
  intros Ht Hc Hs Hw Hl Hna.
  assert (Hb : Forall (fun c => (c = 32 \/ 48 <= c <= 57 \/ 65 <= c <= 90
                                \/ 97 <= c <= 122)%N) t).
  { eapply Forall_impl; [exact Hc|]. apply title_char_bounds. }
  assert (Hd : info_truthy (Some d) = true).
  { cbn [info_truthy]. apply negb_true_iff, bool_decide_eq_false_2. intros ->.
    unfold dict_get in Ht. rewrite !lookup_empty in Ht. cbn in Ht.
    injection Ht as <-. simpl in Hl. lia. }
  assert (Htr : truthy t = true).
  { destruct t; [simpl in Hl; lia | reflexivity]. }
  unfold _title_for_filename. rewrite Hd. cbn [negb]. cbv zeta.
  change (default ∅ (Some d)) with d.
  rewrite Ht. cbn [fmt]. rewrite Hs. cbn [fold_left].
  rewrite (replace1_absent 33), (replace1_absent 65281), (replace1_absent 451),
    (replace1_absent 8252)
    by (eapply Forall_impl; [exact Hb|]; cbv beta; intros; lia).
  rewrite Hw, Hs, Htr. cbn [negb orb].
  unfold str_eqb. rewrite (bool_decide_eq_false_2 _ Hna). cbn [orb].
  replace (length t <=? 1)%nat with false
    by (symmetry; apply Nat.leb_gt; lia).
  rewrite filter_all.
  2:{ eapply Forall_impl; [exact Hb|]. cbv beta. intros c Hc'.
      unfold illegal_char, in_ranges. cbn [existsb].
      apply negb_true_iff.
      rewrite !orb_false_iff, !andb_false_iff, !N.leb_gt. lia. }
  rewrite Hw, Hs, Htr. rewrite take_ge by lia. rewrite Htr. cbn [negb orb].
  rewrite bool_decide_eq_false_2.
  2:{ rewrite !elem_of_cons, elem_of_nil. intros [->|[->|[->|[]]]];
        try (simpl in Hl; lia). congruence. }
  destruct t as [|c t']; [discriminate|].
  inversion Hb as [|? ? Hc0 _]; subst.
  cbn [app startswith BANG FULLWIDTH_BANG].
  rewrite !(proj2 (N.eqb_neq c _)) by lia. reflexivity.
Qed.

(** ** The deferred download, the gate and the cookie in use *)

(** A download answered with a 200 JSON body left its file under the
    token: the first GET of the download URL streams that file under the
    fixed name, and removes the entry. *)
Theorem deferred_download_roundtrip
    (as_audio : bool) (req : Request) (e : Env) (w : World)
    (body : list (str * jvalue)) :
  let name := if as_audio then py "audio.mp3" else py "video.mp4" in
  let w1 := snd (_handle_download as_audio req e w) in
  let token := token_urlsafe e in
  fst (_handle_download as_audio req e w) = jsonify body 200 ->
  exists p,
    isfile w1 p = true /\
    download_by_token token w1
      = (Stream p (content_disposition_of name) (getsize w1 p),
         with_pending (delete token) w1) /\
    _PENDING_DOWNLOADS (with_pending (delete token) w1) !! token = None.
Proof.
  intros name w1 token Hr.
  destruct (handle_download_outcomes as_audio req e w)
    as [(msg & E)|[(p & _ & E)|(p & Hf & _ & Hp)]];
    try (rewrite E in Hr; discriminate).
  exists p. split; [exact Hf|]. split; [|apply lookup_delete_eq].
  unfold download_by_token, pop. subst w1 token. rewrite Hp. cbv beta iota.
  match goal with
  | |- context [isfile (with_pending ?f ?w0) p] =>
      change (isfile (with_pending f w0) p) with (isfile w0 p)
  end.
  rewrite Hf. reflexivity.
Qed.

(** The gate as a state machine: a correct password opens it for every
    later request, a wrong or missing one is answered 401 and changes
    nothing, and after logout the protected endpoints are closed. *)
Theorem auth_gate_state_machine (req : Request) (w : World) :
  let password := strip (fmt (py_or (form req !! py "password") (Some []))) in
  (method req <> py "GET" ->
   (password <> [] -> check_password_hash password = true ->
    session_authenticated (snd (login req w)) = true /\
    forall req', require_auth req' (snd (login req w)) = None) /\
   (password = [] \/ check_password_hash password = false ->
    login req w
      = (render_template (py "login.html")
           [(py "error", py "Invalid password.")] 401, w))) /\
  (session_authenticated w = true -> forall req', require_auth req' w = None) /\
  (forall req',
     endpoint req' <> Some (py "login") -> endpoint req' <> Some (py "logout") ->
     require_auth req' (snd (logout w)) <> None).
Proof.
  intros password. split; [|split].
  - intros Hm. unfold login, str_eqb. rewrite (bool_decide_eq_false_2 _ Hm).
    fold password. clearbody password. split.
    + intros Hp Hc. rewrite Hc.
      assert (Ht : truthy password = true) by (destruct password; [congruence | reflexivity]).
      rewrite Ht. cbn [negb orb snd]. split; [reflexivity|].
      intros req'. unfold require_auth. cbn [session_authenticated with_session].
      destruct (bool_decide _); reflexivity.
    + intros [Hp|Hc].
      * rewrite Hp. reflexivity.
      * rewrite Hc, orb_true_r. reflexivity.
  - intros Hs req'. unfold require_auth. rewrite Hs.
    destruct (bool_decide _); reflexivity.
  - intros req' Hl Ho. unfold require_auth.
    rewrite bool_decide_eq_false_2.
    2:{ rewrite !elem_of_cons, elem_of_nil. intros [?|[?|[]]]; congruence. }
    cbn [logout snd session_authenticated with_session].
    destruct (str_eqb _ _); discriminate.
Qed.

(** The one call of the extractor that a request with a valid URL makes. *)
Lemma handle_download_call
    (as_audio : bool) (req : Request) (e : Env) (w : World) (u : str) :
  _prepare_url (fmt (py_or (form req !! py "url") (Some []))) = (Some u, None) ->
  exists opts,
    ydl_calls (snd (_handle_download as_audio req e w)) = ydl_calls w ++ [(u, opts)] /\
    playlist_items opts = (if _is_playlist_url u then Some (py "1") else None) /\
    cookiefile opts =
      match files req !! py "cookies" with
      | Some f =>
          if truthy (filename f) then Some (TempFile (tmp_counter w))
          else if isfile w PERSISTENT_COOKIE_PATH then Some PERSISTENT_COOKIE_PATH
               else None
      | None =>
          if isfile w PERSISTENT_COOKIE_PATH then Some PERSISTENT_COOKIE_PATH else None
      end.
Proof.
  intros Hprep.
  assert (Ht : truthy (strip u) = true).
  { destruct (prepare_url_cases (fmt (py_or (form req !! py "url") (Some []))))
      as [(u' & Hu & E)|(msg & _ & E)]; rewrite E in Hprep; congruence. }
  assert (Hcalls : forall c w0,
    exists opts,
      ydl_calls (snd (_download (Some u) as_audio c e w0)) = ydl_calls w0 ++ [(u, opts)] /\
      playlist_items opts = (if _is_playlist_url u then Some (py "1") else None) /\
      cookiefile opts
        = match c with Some p => if isfile w0 p then Some p else None | None => None end).
  { intros c w0. unfold _download, mktemp. cbn [fmt truthy_opt].
    rewrite Ht, (truthy_strip _ Ht). cbn [negb orb].
    eexists. split.
    - destruct (ydl e) as [outs|info outs]; [reflexivity|].
      destruct (info_truthy info); [|reflexivity].
      destruct outs; reflexivity.
    - split; reflexivity. }
  unfold _handle_download. rewrite Hprep. cbn [truthy_opt].
  destruct (files req !! py "cookies") as [f|].
  1: destruct (truthy (filename f)).
  all: unfold mktemp;
    match goal with |- context [_download (Some ?u0) ?a ?c ?e0 ?w0] =>
      destruct (Hcalls c w0) as (opts & Hc & Hpl & Ho);
      destruct (_download (Some u0) a c e0 w0) as [[path info] w2]
    end;
    cbn [snd] in Hc; exists opts; (split; [|split; [exact Hpl|rewrite Ho]]).
  all: try (destruct path as [p|]; cbv zeta;
    repeat match goal with
           | |- context [if ?b then _ else _] => destruct b
           end; exact Hc).
  - fs_eval Ho. reflexivity.
  - destruct (isfile w PERSISTENT_COOKIE_PATH) eqn:Ep; [|reflexivity].
    unfold isfile in Ep |- *. cbn [fs]. rewrite Ep. reflexivity.
  - destruct (isfile w PERSISTENT_COOKIE_PATH) eqn:Ep; [|reflexivity].
    unfold isfile in Ep |- *. cbn [fs]. rewrite Ep. reflexivity.
Qed.

(** On a request with a valid URL the extractor is called once, with the
    prepared URL, and with the cookie file of the request: the temporary
    copy of an upload when there is one, else the persisted file when it
    exists, else none. *)
Theorem handle_download_cookie_in_use
    (as_audio : bool) (req : Request) (e : Env) (w : World) (u : str) :
  _prepare_url (fmt (py_or (form req !! py "url") (Some []))) = (Some u, None) ->
  exists opts,
    ydl_calls (snd (_handle_download as_audio req e w)) = ydl_calls w ++ [(u, opts)] /\
    cookiefile opts =
      match files req !! py "cookies" with
      | Some f =>
          if truthy (filename f) then Some (TempFile (tmp_counter w))
          else if isfile w PERSISTENT_COOKIE_PATH then Some PERSISTENT_COOKIE_PATH
               else None
      | None =>
          if isfile w PERSISTENT_COOKIE_PATH then Some PERSISTENT_COOKIE_PATH else None
      end.
Proof.
  intros Hprep.
  destruct (handle_download_call as_audio req e w u Hprep) as (opts & Hc & _ & Ho).
  exists opts. split; assumption.
Qed.

(** C5, as amended: an input the program takes for a playlist URL is
    prepared to itself with the surrounding white space removed, so
    unchanged when it has none, and the extractor is then called with that
    URL and [playlist_items] set to 1: by [_download] on the prepared URL,
    and so by the handler of a request whose form carries the input. *)
Theorem C5_playlist_passthrough (url : str) :
  _is_playlist_url url = true ->
  _prepare_url url = (Some (strip url), None) /\
  (strip url = url -> _prepare_url url = (Some url, None)) /\
  (forall as_audio cookiefile_path e w,
     exists opts,
       playlist_items opts = Some (py "1") /\
       ydl_calls (snd (_download (fst (_prepare_url url)) as_audio cookiefile_path e w))
         = ydl_calls w ++ [(strip url, opts)]) /\
  (forall as_audio req e w,
     form req !! py "url" = Some url ->
     exists opts,
       playlist_items opts = Some (py "1") /\
       ydl_calls (snd (_handle_download as_audio req e w))
         = ydl_calls w ++ [(strip url, opts)]).
Proof.
  intros H.
  assert (Ht : truthy (strip url) = true).
  { unfold _is_playlist_url in H. destruct (truthy (strip url)); [reflexivity|].
    rewrite orb_true_r in H. discriminate. }
  assert (Hp : is_Some (re_search YT_PLAYLIST_RE (strip url))).
  { rewrite (is_playlist_url_eq _ Ht) in H. apply bool_decide_eq_true_1 in H. exact H. }
  pose proof (prepare_url_playlist _ Hp) as E.
  assert (Ht' : truthy (strip (strip url)) = true) by (rewrite strip_strip; exact Ht).
  assert (Hpl : _is_playlist_url (strip url) = true).
  { rewrite (is_playlist_url_eq _ Ht'), strip_strip.
    apply bool_decide_eq_true_2, Hp. }
  split; [exact E|]. split; [intros Hs; rewrite E, Hs; reflexivity|]. split.
  - intros as_audio cookiefile_path e w. rewrite E. simpl fst.
    destruct (download_logs_call (strip url) as_audio cookiefile_path e w Ht')
      as (opts & Ho & Hc).
    exists opts. split; [|exact Hc]. rewrite Ho, Hpl. reflexivity.
  - intros as_audio req e w Hf.
    assert (Hprep : _prepare_url (fmt (py_or (form req !! py "url") (Some [])))
                    = (Some (strip url), None)).
    { rewrite Hf. unfold py_or. cbn [truthy_opt]. rewrite (truthy_strip _ Ht). exact E. }
    destruct (handle_download_call as_audio req e w _ Hprep) as (opts & Hc & Ho & _).
    exists opts. split; [|exact Hc]. rewrite Ho, Hpl. reflexivity.
Qed.

(** ** The token view, the gate and the extraction, from outside *)

(** What [download_by_token] answers and what it leaves: the entry of the
    token is removed in every case, also when its file is gone; the other
    entries and the files stay. *)
Theorem download_by_token_cases (token : str) (w : World) :
  let r := fst (download_by_token token w) in
  let w' := snd (download_by_token token w) in
  fs w' = fs w /\
  _PENDING_DOWNLOADS w' !! token = None /\
  (forall t, t <> token -> _PENDING_DOWNLOADS w' !! t = _PENDING_DOWNLOADS w !! t) /\
  match _PENDING_DOWNLOADS w !! token with
  | None =>
      r = jsonify [(py "error",
                    JStr (py "Download link invalid or already used."))] 404
  | Some (p, name) =>
      if isfile w p
      then r = Stream p (content_disposition_of name) (getsize w p)
      else r = jsonify [(py "error", JStr (py "File no longer available."))] 404
  end.
Proof.
  intros r w'. subst r w'. unfold download_by_token, pop.
  destruct (_PENDING_DOWNLOADS w !! token) as [[p name]|] eqn:E; cbv beta iota.
  - change (isfile (with_pending (delete token) w) p) with (isfile w p).
    destruct (isfile w p); cbn [negb fst snd];
      (split; [reflexivity|]); (split; [apply lookup_delete_eq|]);
      (split; [intros t Ht; apply lookup_delete_ne; congruence | reflexivity]).
  - cbn [fst snd].
    split; [reflexivity|]. split; [apply lookup_delete_eq|].
    split; [intros t Ht; apply lookup_delete_ne; congruence | reflexivity].
Qed.

(** Without an authenticated session no request reaches the files, the
    tokens or the extractor, and the only request that authenticates the
    session is a POST to login whose stripped password the hash accepts. *)
Theorem unauthenticated_request_is_harmless
    (req : Request) (e : Env) (w w' : World) (r : Response) :
  session_authenticated w = false ->
  full_dispatch_request req e w = Some (r, w') ->
  fs w' = fs w /\
  _PENDING_DOWNLOADS w' = _PENDING_DOWNLOADS w /\
  ydl_calls w' = ydl_calls w /\
  tmp_counter w' = tmp_counter w /\
  (session_authenticated w' = true ->
   endpoint req = Some (py "login") /\ method req <> py "GET" /\
   check_password_hash
     (strip (fmt (py_or (form req !! py "password") (Some [])))) = true).
Proof.
  intros Hs H. unfold full_dispatch_request, require_auth in H.
  destruct (bool_decide (endpoint req ∈ [Some (py "login"); Some (py "logout")])) eqn:Eb.
  - apply bool_decide_eq_true_1 in Eb.
    rewrite !elem_of_cons, elem_of_nil in Eb.
    unfold dispatch_request in H.
    destruct Eb as [Eb|[Eb|[]]]; rewrite Eb in H.
    + change (str_eqb (py "login") (py "login")) with true in H. cbv iota in H.
      injection H as H. unfold login in H. rewrite Hs in H.
      unfold str_eqb in H. destruct (bool_decide (method req = py "GET")) eqn:Em.
      * injection H as <- <-. repeat split; try reflexivity; congruence.
      * apply bool_decide_eq_false_1 in Em.
        destruct (negb _ || negb _) eqn:Ec; injection H as <- <-;
          repeat split; try reflexivity; try exact Eb; try exact Em;
          try congruence.
        apply orb_false_elim in Ec as [_ Ec]. apply negb_false_iff in Ec. exact Ec.
    + change (str_eqb (py "logout") (py "login")) with false in H.
      change (str_eqb (py "logout") (py "logout")) with true in H. cbv iota in H.
      unfold logout in H. injection H as <- <-. cbn.
      repeat split; try reflexivity; discriminate.
  - rewrite Hs in H. destruct (str_eqb (method req) (py "GET"));
      injection H as <- <-; repeat split; try reflexivity; congruence.
Qed.

(** [_download] returns a path and a record together or neither; a path
    it returns is that of a file that exists, the first of the output
    directory it made; and it leaves every file outside that directory,
    and every token, as it was. *)
Theorem download_returns_both_or_neither
    (url : option str) (as_audio : bool) (c : option path) (e : Env) (w : World) :
  let r := fst (_download url as_audio c e w) in
  let w' := snd (_download url as_audio c e w) in
  (r = (None, None) \/
   exists info, r = (Some (OutFile (tmp_counter w) 0), info) /\
                info_truthy info = true /\
                isfile w' (OutFile (tmp_counter w) 0) = true) /\
  _PENDING_DOWNLOADS w' = _PENDING_DOWNLOADS w /\
  (forall p, (forall i, p <> OutFile (tmp_counter w) i) -> fs w' !! p = fs w !! p).
Proof.
  intros r w'. subst r w'. unfold _download, mktemp.
  destruct (negb (truthy_opt url) || negb (truthy (strip (fmt url)))).
  { cbn [fst snd]. auto. }
  destruct (ydl e) as [outs|info outs].
  - cbn [fst snd with_fs log_call fs _PENDING_DOWNLOADS].
    split; [auto|]. split; [reflexivity|].
    intros p Hp. apply write_outputs_other, Hp.
  - destruct (info_truthy info) eqn:Ei; cbn [negb].
    + destruct outs as [|b t]; cbn [fst snd with_fs log_call fs _PENDING_DOWNLOADS].
      * split; [auto|]. split; [reflexivity|]. intros p Hp. reflexivity.
      * split; [|split; [reflexivity | intros p Hp; apply write_outputs_other, Hp]].
        right. exists info. split; [reflexivity|]. split; [exact Ei|].
        unfold isfile. cbn [fs with_fs log_call]. rewrite write_outputs_first.
        apply bool_decide_eq_true_2. eauto.
    + cbn [fst snd with_fs log_call fs _PENDING_DOWNLOADS].
      split; [auto|]. split; [reflexivity|].
      intros p Hp. apply write_outputs_other, Hp.
Qed.

(** The three classifiers agree: what the playlist test accepts and what
    the video pattern finds an id in, the validity test accepts; and none
    of them depends on white space around the URL. *)
Theorem classifiers_consistent (url : str) :
  (_is_playlist_url url = true -> _is_youtube_url url = true) /\
  (is_Some (_video_id_from_url url) -> _is_youtube_url url = true) /\
  _is_playlist_url (strip url) = _is_playlist_url url /\
  _is_youtube_url (strip url) = _is_youtube_url url /\
  _video_id_from_url (strip url) = _video_id_from_url url.
Proof.
  destruct (truthy (strip url)) eqn:Ht.
  - pose proof (truthy_strip _ Ht) as Hu.
    assert (Ht' : truthy (strip (strip url)) = true) by (rewrite strip_strip; exact Ht).
    rewrite (is_playlist_url_eq _ Ht), (is_youtube_url_eq _ Ht).
    rewrite (is_playlist_url_eq _ Ht'), (is_youtube_url_eq _ Ht').
    unfold _video_id_from_url. rewrite Hu, Ht, !strip_strip. cbn [negb].
    split; [|split; [|auto]].
    + intros H. apply bool_decide_eq_true_1 in H.
      apply bool_decide_eq_true_2, search_playlist_valid, H.
    + intros H. apply bool_decide_eq_true_2, search_watch_valid.
      destruct (re_search YT_WATCH_RE (strip url)); [eauto|].
      destruct H; discriminate.
  - apply truthy_nil in Ht.
    unfold _is_playlist_url, _is_youtube_url, _video_id_from_url.
    rewrite Ht. cbn [truthy negb orb]. rewrite !orb_true_r.
    split; [discriminate|]. split.
    + destruct (negb (truthy url)); [intros [? ?]; discriminate|].
      rewrite search_watch_nil. intros [? ?]. discriminate.
    + repeat split; try reflexivity.
      destruct (negb (truthy url)); [reflexivity|].
      rewrite search_watch_nil. reflexivity.
Qed.

(** ** The stem of a file name *)

Lemma Forall_lstrip (P : N -> Prop) (l : str) : Forall P l -> Forall P (lstrip l).
Proof.
  induction 1 as [|x t Hx Ht IH]; simpl; [constructor|].
  destruct (isspace x); [exact IH | constructor; assumption].
Qed.

Lemma Forall_strip (P : N -> Prop) (l : str) : Forall P l -> Forall P (strip l).
Proof.
  intros H. unfold strip, rstrip.
  apply Forall_rev, Forall_lstrip, Forall_rev, Forall_lstrip, H.
Qed.

Lemma Forall_sub_ws (P : N -> Prop) (l : str) :
  P 32%N -> Forall P l -> forall b, Forall P (sub_ws b l).
Proof.
  intros H32. induction 1 as [|x t Hx Ht IH]; intros b; simpl; [constructor|].
  destruct (isspace x); [destruct b|]; try constructor; auto.
Qed.

Lemma Forall_filter_true {A} (f : A -> bool) (l : list A) :
  Forall (fun x => f x = true) (List.filter f l).
Proof.
  induction l as [|a l IH]; simpl; [constructor|].
  destruct (f a) eqn:E; [constructor; assumption | exact IH].
Qed.

Lemma title_for_filename_safe (info : option info_dict) (ext : str) (fb : option str) :
  let v1 :=
    if negb (truthy_opt fb) || (length (fmt fb) <? 5)%nat
    then (if info_truthy info then dict_get (default ∅ info) (py "id") else None)
    else fb in
  let v2 :=
    if negb (truthy_opt v1) || bool_decide (strip (fmt v1) ∈ [BANG; []])
       || (length (fmt v1) <? 5)%nat
    then Some (py "video") else v1 in
  _title_for_filename info ext fb = strip (fmt v2) ++ py "." ++ ext \/
  exists safe,
    _title_for_filename info ext fb = safe ++ py "." ++ ext /\
    safe <> [] /\ info_truthy info = true /\
    Forall (fun c => illegal_char c = false) safe /\
    (length safe <= 200)%nat.
Proof.
  intros v1 v2. unfold _title_for_filename. fold v1. fold v2.
  destruct (info_truthy info) eqn:Ei; cbn [negb]; [|left; reflexivity].
  match goal with |- context [strip (sub_ws false ?r)] => generalize r end.
  intros raw0. set (raw := strip (sub_ws false raw0)).
  destruct (negb (truthy raw) || str_eqb raw (py "NA") || (length raw <=? 1)%nat);
    [left; reflexivity|].
  set (safe0 := strip (sub_ws false (List.filter (fun x => negb (illegal_char x)) raw))).
  set (safe := if truthy safe0 then take 200 safe0 else []).
  destruct (negb (truthy safe)) eqn:E1; [left; reflexivity|]. cbn [orb].
  destruct (bool_decide (safe ∈ [BANG; FULLWIDTH_BANG; py "NA"]));
    [left; reflexivity|].
  destruct (startswith BANG (safe ++ py "." ++ ext)); [left; reflexivity|].
  destruct (startswith FULLWIDTH_BANG (safe ++ py "." ++ ext)); [left; reflexivity|].
  right. exists safe. cbn [orb]. split; [reflexivity|].
  split; [intros E; rewrite E in E1; discriminate|]. split; [reflexivity|].
  assert (H0 : Forall (fun c => illegal_char c = false) safe0).
  { apply Forall_strip, Forall_sub_ws; [reflexivity|].
    eapply Forall_impl; [apply Forall_filter_true|].
    intros x Hx. apply negb_true_iff, Hx. }
  subst safe. destruct (truthy safe0).
  - split; [apply Forall_take, H0 | rewrite length_take; lia].
  - split; [constructor | simpl; lia].
Qed.

(** Every name [_title_for_filename] returns is a stem that is not empty,
    a dot and the extension, and the stem is one of four: the word
    [video]; the fallback id of the caller, stripped; the [id] of the
    metadata record, stripped; or a title in which none of the characters
    the function removes is left and that has at most 200 characters.  An
    id is used only if it has 5 characters or more, and it is used as it
    is: the characters removed from titles are not removed from it. *)
Theorem title_for_filename_stem
    (info : option info_dict) (ext : str) (fb : option str) :
  exists stem,
    _title_for_filename info ext fb = stem ++ py "." ++ ext /\
    stem <> [] /\
    (stem = py "video" \/
     (exists s, fb = Some s /\ (5 <= length s)%nat /\ stem = strip s) \/
     (exists d s, info = Some d /\ dict_get d (py "id") = Some s /\
                  (5 <= length s)%nat /\ stem = strip s) \/
     (info_truthy info = true /\
      Forall (fun c => illegal_char c = false) stem /\ (length stem <= 200)%nat)).
Proof.
  destruct (title_for_filename_safe info ext fb) as [E|(safe & E & Hn & Hi & Hl & Hlen)].
  2:{ exists safe. split; [exact E|]. split; [exact Hn|]. do 3 right. auto. }
  rewrite E. clear E. eexists. split; [reflexivity|].
  match goal with |- context [if ?c then Some (py "video") else ?v] =>
    destruct c eqn:Ec; [split; [discriminate | left; reflexivity]|];
    set (v1 := v) in *
  end.
  apply orb_false_elim in Ec as [Ec H5]. apply orb_false_elim in Ec as [Ht Hb].
  apply negb_false_iff in Ht. apply bool_decide_eq_false in Hb.
  apply Nat.ltb_ge in H5.
  split.
  { intros E. apply Hb. rewrite E. repeat constructor. }
  right. subst v1.
  destruct (negb (truthy_opt fb) || (length (fmt fb) <? 5)%nat).
  - right. left. destruct info as [d|]; [|discriminate].
    destruct (info_truthy (Some d)); [|discriminate].
    change (default ∅ (Some d)) with d in *.
    destruct (dict_get d (py "id")) as [s|] eqn:Ed; [|discriminate].
    exists d, s. cbn [fmt] in H5. repeat split; first [assumption | reflexivity].
  - left. destruct fb as [s|]; [|discriminate].
    exists s. cbn [fmt] in H5. repeat split; first [assumption | reflexivity].
Qed.

(** ** The streamed body *)

Lemma CHUNK_pos : (0 < _CHUNK)%nat.
Proof. unfold _CHUNK. lia. Qed.

Lemma truthy_take (n : nat) (l : blob) : (0 < n)%nat -> truthy (take n l) = truthy l.
Proof. intros H. destruct n; [lia|]. destruct l; reflexivity. Qed.

(** From its [yield] on, the generator hands out what is left of the file
    in chunks, and the cleanup runs once: when the loop ends, or when the
    server closes the generator. *)
Lemma iterate_suspended ur file : forall turns unread w,
  exists chunks rest g w1,
    iterate turns ur (Suspended file unread) w = (chunks, g, w1) /\
    unread = concat chunks ++ rest /\
    Forall (fun c => 0 < length c <= _CHUNK)%nat chunks /\
    (forall i c, chunks !! i = Some c -> (S i < length chunks)%nat ->
                 length c = _CHUNK) /\
    (rest <> [] -> Forall (fun c => length c = _CHUNK) chunks) /\
    close ur g w1 = (Closed, cleanup file ur w) /\
    ((length unread < turns)%nat -> rest = [] /\ g = Closed).
Proof.
  pose proof CHUNK_pos as Hpos.
  induction turns as [|n IH]; intros unread w.
  - exists [], unread, (Suspended file unread), w. cbn [iterate concat app close].
    repeat split; auto; try lia; try (intros i c Hi; discriminate).
  - cbn [iterate next]. unfold read_turn. rewrite (truthy_take _ _ Hpos).
    destruct unread as [|x t].
    + exists [], [], Closed, (cleanup file ur w). cbn [truthy negb close].
      repeat split; auto; try lia; try (intros i c Hi; discriminate).
    + cbn [truthy negb].
      assert (Htd : take _CHUNK (x :: t) ++ drop _CHUNK (x :: t) = x :: t)
        by apply take_drop.
      assert (Hlt : length (take _CHUNK (x :: t))
                    = Nat.min _CHUNK (length (x :: t))) by apply length_take.
      assert (Hld : length (drop _CHUNK (x :: t)) = (length (x :: t) - _CHUNK)%nat)
        by apply length_drop.
      cbn [length] in Hlt, Hld.
      destruct (IH (drop _CHUNK (x :: t)) w)
        as (chunks & rest & g & w1 & -> & Eu & Hb & Hfull & Hrest & Hc & Hend).
      revert Htd Hlt Hld Eu Hend.
      generalize (take _CHUNK (x :: t)) (drop _CHUNK (x :: t)).
      intros c0 d0 Htd Hlt Hld Eu Hend.
      exists (c0 :: chunks), rest, g, w1.
      assert (Hlen : (0 < length c0 <= _CHUNK)%nat) by lia.
      assert (Hne : chunks <> [] \/ rest <> [] -> length c0 = _CHUNK).
      { intros Hn.
        assert (Hd : (0 < length d0)%nat).
        { rewrite Eu, length_app. destruct Hn as [Hn|Hn].
          - destruct chunks as [|c cs]; [congruence|].
            inversion Hb as [|? ? Hc0 _]; subst.
            rewrite concat_cons, !length_app. lia.
          - destruct rest; [congruence|]. cbn [length]. lia. }
        lia. }
      split; [reflexivity|]. split.
      { rewrite concat_cons, <- app_assoc, <- Eu. symmetry. exact Htd. }
      split; [constructor; assumption|]. split.
      { intros [|i] c Hi Hl.
        - injection Hi as <-. apply Hne. left.
          destruct chunks; [cbn [length] in Hl; lia | discriminate].
        - apply (Hfull i c Hi). cbn [length] in Hl. lia. }
      split.
      { intros Hr. constructor; [apply Hne; auto | apply Hrest, Hr]. }
      split; [exact Hc|].
      intros Hl. apply Hend. cbn [length] in Hl. lia.
Qed.

(** The body as the server receives it when it reads it to the end: the
    chunks put together are the file, byte for byte; every chunk has
    between 1 and [_CHUNK] bytes and every chunk but the last has [_CHUNK];
    the generator is finished, and the file is removed unless [os.unlink]
    raised; no other file and no token is touched. *)
Theorem stream_roundtrip
    (file : path) (content : blob) (ur : bool) (turns : nat) (w : World) :
  fs w !! file = Some content ->
  (length content < turns)%nat ->
  exists chunks w',
    iterate turns ur (_stream_and_cleanup file) w = (chunks, Closed, w') /\
    concat chunks = content /\
    Forall (fun c => 0 < length c <= _CHUNK)%nat chunks /\
    (forall i c, chunks !! i = Some c -> (S i < length chunks)%nat ->
                 length c = _CHUNK) /\
    fs w' = (if ur then fs w else delete file (fs w)) /\
    _PENDING_DOWNLOADS w' = _PENDING_DOWNLOADS w /\
    (ur = false -> isfile w' file = false).
Proof.
  intros Hf Hl. destruct turns as [|n]; [lia|].
  destruct (iterate_suspended ur file (S n) content w)
    as (chunks & rest & g & w1 & Ei & Eu & Hb & Hfull & _ & Hc & Hend).
  destruct (Hend Hl) as [-> ->]. cbn [close] in Hc. injection Hc as ->.
  exists chunks, (cleanup file ur w).
  split.
  { unfold _stream_and_cleanup. cbn [iterate next]. rewrite Hf. exact Ei. }
  rewrite app_nil_r in Eu.
  split; [auto|]. split; [exact Hb|]. split; [exact Hfull|].
  unfold cleanup. destruct ur; cbn; repeat split; try reflexivity; try discriminate.
  intros _. unfold isfile. cbn. rewrite lookup_delete_eq.
  apply bool_decide_eq_false_2. intros [? ?]. discriminate.
Qed.

(** When the server stops reading after any number of turns and closes the
    generator, what it has received is the beginning of the file, in whole
    chunks of [_CHUNK] bytes if anything is left unsent; and the cleanup
    has run exactly when the generator had been started: a generator
    closed before its first [next] leaves the file where it is. *)
Theorem stream_closed_early
    (file : path) (content : blob) (ur : bool) (turns : nat) (w : World) :
  fs w !! file = Some content ->
  exists chunks rest g w1,
    iterate turns ur (_stream_and_cleanup file) w = (chunks, g, w1) /\
    content = concat chunks ++ rest /\
    (rest <> [] -> Forall (fun c => length c = _CHUNK) chunks) /\
    fs (snd (close ur g w1))
      = (match turns with
         | O => fs w
         | S _ => if ur then fs w else delete file (fs w)
         end) /\
    fst (close ur g w1) = Closed.
Proof.
  intros Hf. destruct turns as [|n].
  - exists [], content, (Created file), w. cbn. repeat split; auto.
  - destruct (iterate_suspended ur file (S n) content w)
      as (chunks & rest & g & w1 & Ei & Eu & _ & _ & Hrest & Hc & _).
    exists chunks, rest, g, w1.
    split.
    { unfold _stream_and_cleanup. cbn [iterate next]. rewrite Hf. exact Ei. }
    split; [exact Eu|]. split; [exact Hrest|].
    rewrite Hc. cbn [fst snd]. split; [|reflexivity].
    unfold cleanup. destruct ur; reflexivity.
Qed.

(** ** The password *)

Lemma load_password_inv (s : Startup) (pw : str) :
  _load_password s = Return pw ->
  truthy pw = true /\ strip pw = pw /\
  let env := default [] (environ s !! py "APP_PASSWORD") in
  ((truthy (strip env) = true /\ pw = strip env) \/
   (truthy (strip env) = false /\
    exists text, password_file s = Some text /\ pw = strip text)).
Proof.
  unfold _load_password.
  destruct (truthy (strip (default [] (environ s !! py "APP_PASSWORD")))) eqn:Ee.
  - intros [= <-]. split; [exact Ee|]. split; [apply strip_strip|]. left. auto.
  - destruct (password_file s) as [text|]; [|discriminate].
    destruct (truthy (strip text)) eqn:Et; [|discriminate].
    cbn [negb]. intros [= <-]. split; [exact Et|]. split; [apply strip_strip|].
    right. eauto.
Qed.

(** [_load_password] returns a password that is not empty and has no white
    space around it: the value of [APP_PASSWORD], stripped, when that is
    not blank, whatever the password file holds; else the text of the
    password file, stripped.  It raises exactly when [APP_PASSWORD] is
    unset or blank and the file is missing or blank, and the message names
    the file. *)
Theorem load_password_spec (s : Startup) :
  let env := default [] (environ s !! py "APP_PASSWORD") in
  match _load_password s with
  | Return pw =>
      pw <> [] /\ strip pw = pw /\
      (if truthy (strip env) then pw = strip env
       else exists text, password_file s = Some text /\ pw = strip text)
  | RuntimeError msg =>
      strip env = [] /\
      match password_file s with
      | None =>
          msg = py "Password file not found: " ++ _PASSWORD_FILE s
                ++ py ". Create .secrets/password with one line (the login password)."
      | Some text =>
          strip text = [] /\ msg = py "Password file is empty: " ++ _PASSWORD_FILE s
      end
  end.
Proof.
  intros env. destruct (_load_password s) as [pw|msg] eqn:E.
  - destruct (load_password_inv s pw E) as (Ht & Hs & H).
    split; [intros ->; discriminate|]. split; [exact Hs|].
    fold env in H. destruct H as [[-> H]|[-> H]]; exact H.
  - unfold _load_password in E. fold env in E.
    destruct (truthy (strip env)) eqn:Ee; [discriminate|].
    apply truthy_nil in Ee. split; [exact Ee|].
    destruct (password_file s) as [text|]; [|congruence].
    destruct (truthy (strip text)) eqn:Et; [discriminate|].
    apply truthy_nil in Et. cbn [negb] in E. split; [exact Et | congruence].
Qed.

(** The password as it was configured logs in: when the hash accepts the
    password it was made from, a POST to login whose password field holds
    the configured text (the value of [APP_PASSWORD], or the text of the
    password file with its line end), or any text that strips to the
    password, authenticates the session and is answered with a redirect. *)
Theorem configured_password_logs_in
    (s : Startup) (pw typed : str) (req : Request) (w : World) :
  _load_password s = Return pw ->
  check_password_hash pw = true ->
  method req <> py "GET" ->
  form req !! py "password" = Some typed ->
  (let env := default [] (environ s !! py "APP_PASSWORD") in
   strip typed = pw \/
   (truthy (strip env) = true /\ typed = env) \/
   (truthy (strip env) = false /\ password_file s = Some typed)) ->
  session_authenticated (snd (login req w)) = true /\
  fst (login req w)
    = redirect (match py_or (args req !! py "next") None with
                | Some n => Location n
                | None => url_for (py "index") []
                end).
Proof.
  intros Hl Hh Hm Hf Ht.
  destruct (load_password_inv s pw Hl) as (Hpw & _ & Hsrc).
  assert (Hs : strip typed = pw).
  { cbv zeta in Ht, Hsrc.
    destruct Ht as [Ht|[[He ->]|[He Hp]]]; [exact Ht| |].
    - destruct Hsrc as [[_ ->]|[He' _]]; [reflexivity | congruence].
    - destruct Hsrc as [[He' _]|(_ & text & Hp' & ->)]; [congruence|].
      congruence. }
  assert (Htt : truthy typed = true).
  { apply truthy_strip. rewrite Hs. exact Hpw. }
  unfold login, str_eqb. rewrite (bool_decide_eq_false_2 _ Hm).
  assert (Hp : py_or (Some typed) (Some []) = Some typed).
  { unfold py_or. cbn [truthy_opt]. rewrite Htt. reflexivity. }
  rewrite Hf, Hp. cbn [fmt]. rewrite Hs, Hpw, Hh. cbn [negb orb fst snd].
  split; reflexivity.
Qed.

(** ** The files and the tokens a request touches, and what is ever served *)

Lemma copy2_other (src dst q : path) (m : gmap path blob) :
  q <> dst -> copy2 src dst m !! q = m !! q.
Proof.
  intros H. unfold copy2. destruct (m !! src); [|reflexivity].
  apply lookup_insert_ne. congruence.
Qed.

Lemma download_taken (url : option str) (as_audio : bool) (c : option path)
    (e : Env) (w : World) :
  let w' := snd (_download url as_audio c e w) in
  (tmp_counter w' = tmp_counter w /\ fs w' = fs w) \/
  (tmp_counter w' = S (tmp_counter w) /\
   forall p, (forall i, p <> OutFile (tmp_counter w) i) -> fs w' !! p = fs w !! p).
Proof.
  intros w'. subst w'. unfold _download, mktemp.
  destruct (negb (truthy_opt url) || negb (truthy (strip (fmt url)))).
  { left. split; reflexivity. }
  right.
  destruct (ydl e) as [outs|info outs].
  { cbn [snd with_fs log_call fs tmp_counter]. split; [reflexivity|].
    intros p Hp. apply write_outputs_other, Hp. }
  destruct (negb (info_truthy info)); [|destruct outs];
    cbn [snd with_fs log_call fs tmp_counter]; (split; [reflexivity|]);
    intros p Hp; apply write_outputs_other, Hp.
Qed.

(** The handler changes files under the temporary names it takes, which
    are the names from the counter of the world it starts in up to the
    counter of the world it leaves, and the cookie file; no other. *)
Lemma handle_download_taken (as_audio : bool) (req : Request) (e : Env) (w : World) :
  let w' := snd (_handle_download as_audio req e w) in
  (tmp_counter w <= tmp_counter w' <= tmp_counter w + 2)%nat /\
  forall p, p <> PERSISTENT_COOKIE_PATH ->
    (forall n, (tmp_counter w <= n < tmp_counter w')%nat ->
               p <> TempFile n /\ forall i, p <> OutFile n i) ->
    fs w' !! p = fs w !! p.
Proof.
  intros w'. subst w'. unfold _handle_download.
  destruct (_prepare_url _) as [u err].
  destruct (truthy_opt err). { cbn [snd]. split; [lia | reflexivity]. }
  destruct (match files req !! py "cookies" with Some _ => _ | None => _ end)
    as [up w1] eqn:E1.
  assert (H1 : (up = None /\ tmp_counter w1 = tmp_counter w /\ fs w1 = fs w) \/
               (up = Some (TempFile (tmp_counter w)) /\
                tmp_counter w1 = S (tmp_counter w) /\
                forall p, p <> TempFile (tmp_counter w) -> fs w1 !! p = fs w !! p)).
  { destruct (files req !! py "cookies") as [f|];
      [destruct (truthy (filename f))|];
      unfold mktemp in E1; injection E1 as <- <-;
      [right|left; auto|left; auto].
    cbn [fs with_fs tmp_counter]. split; [reflexivity|]. split; [reflexivity|].
    intros p Hp. apply lookup_insert_ne. congruence. }
  clear E1.
  match goal with
  | |- context [_download u as_audio ?c e w1] =>
      pose proof (download_taken u as_audio c e w1) as Hd;
      destruct (_download u as_audio c e w1) as [[path info] w2]
  end.
  cbn [snd] in Hd. cbv zeta.
  assert (Hrest : forall w4 : World,
    tmp_counter w4 = tmp_counter w2 ->
    (forall q, q <> PERSISTENT_COOKIE_PATH -> Some q <> up ->
               fs w4 !! q = fs w2 !! q) ->
    (tmp_counter w <= tmp_counter w4 <= tmp_counter w + 2)%nat /\
    forall p, p <> PERSISTENT_COOKIE_PATH ->
      (forall n, (tmp_counter w <= n < tmp_counter w4)%nat ->
                 p <> TempFile n /\ forall i, p <> OutFile n i) ->
      fs w4 !! p = fs w !! p).
  { intros w4 Hc4 Hf4.
    assert (Hc : (tmp_counter w <= tmp_counter w1 <= S (tmp_counter w))%nat /\
                 (tmp_counter w1 <= tmp_counter w2 <= S (tmp_counter w1))%nat).
    { destruct H1 as [(_ & Hc1 & _)|(_ & Hc1 & _)];
        destruct Hd as [[Hc2 _]|[Hc2 _]]; lia. }
    split; [lia|]. intros p Hp Hfresh.
    rewrite Hf4; [|exact Hp|].
    - transitivity (fs w1 !! p).
      + destruct Hd as [[_ ->]|[Hc2 Hf2]]; [reflexivity|].
        apply Hf2. apply (Hfresh (tmp_counter w1)). lia.
      + destruct H1 as [(_ & _ & ->)|(_ & Hc1 & Hf1)]; [reflexivity|].
        apply Hf1. apply (Hfresh (tmp_counter w)). lia.
    - destruct H1 as [(-> & _)|(-> & Hc1 & _)]; [discriminate|].
      intros [= ->]. apply (proj1 (Hfresh (tmp_counter w) ltac:(lia))).
      reflexivity. }
  assert (Hclean : forall w3 : World,
    tmp_counter w3 = tmp_counter w2 ->
    (forall q, q <> PERSISTENT_COOKIE_PATH -> Some q <> up ->
               fs w3 !! q = fs w2 !! q) ->
    let w4 := match up with
              | Some u0 =>
                  if isfile w3 u0
                  then (if unlink_raises e then w3 else with_fs (delete u0) w3)
                  else w3
              | None => w3
              end in
    tmp_counter w4 = tmp_counter w2 /\
    forall q, q <> PERSISTENT_COOKIE_PATH -> Some q <> up ->
              fs w4 !! q = fs w2 !! q).
  { intros w3 Hc3 Hf3 w4. subst w4.
    destruct up as [u0|]; [|auto].
    destruct (isfile w3 u0); [|auto].
    destruct (unlink_raises e); [auto|].
    cbn [with_fs fs tmp_counter]. split; [exact Hc3|].
    intros q Hq Hu. rewrite lookup_delete_ne by congruence. auto. }
  destruct path as [p|].
  2:{ cbn [fst snd]. apply Hrest; apply (Hclean w2); auto. }
  assert (Hcopy :
    let w3 := match up with
              | Some u0 =>
                  if isfile w2 p && isfile w2 u0
                  then (if copy_raises e then w2
                        else with_fs (copy2 u0 PERSISTENT_COOKIE_PATH) w2)
                  else w2
              | None => w2
              end in
    tmp_counter w3 = tmp_counter w2 /\
    forall q, q <> PERSISTENT_COOKIE_PATH -> Some q <> up ->
              fs w3 !! q = fs w2 !! q).
  { destruct up as [u0|]; [|cbv zeta; auto].
    destruct (isfile w2 p && isfile w2 u0); [|cbv zeta; auto].
    destruct (copy_raises e); cbv zeta; [auto|].
    cbn [with_fs fs tmp_counter]. split; [reflexivity|].
    intros q Hq _. apply copy2_other, Hq. }
  cbv zeta in Hcopy.
  match goal with
  | |- context [negb (isfile ?w4 p)] =>
      assert (H4 : tmp_counter w4 = tmp_counter w2 /\
                   forall q, q <> PERSISTENT_COOKIE_PATH -> Some q <> up ->
                             fs w4 !! q = fs w2 !! q);
      [|generalize dependent w4]
  end.
  { destruct Hcopy as [Hc3 Hf3]. apply (Hclean _ Hc3 Hf3). }
  intros w4 [Hc4 Hf4].
  destruct (negb (isfile w4 p)); [cbn [snd]; apply Hrest; assumption|].
  destruct (truthy_opt _ && bool_decide _); cbn [snd];
    [cbn [with_pending fs tmp_counter]|]; apply Hrest; assumption.
Qed.

Lemma handle_download_files (as_audio : bool) (req : Request) (e : Env) (w : World) :
  let w' := snd (_handle_download as_audio req e w) in
  (tmp_counter w <= tmp_counter w' <= tmp_counter w + 2)%nat /\
  forall p, p <> PERSISTENT_COOKIE_PATH ->
    (forall n, (tmp_counter w <= n)%nat -> p <> TempFile n /\ forall i, p <> OutFile n i) ->
    fs w' !! p = fs w !! p.
Proof.
  intros w'. destruct (handle_download_taken as_audio req e w) as [Hc Hf].
  split; [exact Hc|]. intros p Hp Hfresh. apply Hf; [exact Hp|].
  intros n [Hn _]. apply Hfresh, Hn.
Qed.

Lemma download_effect (url : option str) (as_audio : bool) (c : option path)
    (e : Env) (w : World) :
  let r := fst (fst (_download url as_audio c e w)) in
  let w' := snd (_download url as_audio c e w) in
  (r = None \/
   (r = Some (OutFile (tmp_counter w) 0) /\ tmp_counter w' = S (tmp_counter w))) /\
  _PENDING_DOWNLOADS w' = _PENDING_DOWNLOADS w /\
  session_authenticated w' = session_authenticated w.
Proof.
  intros r w'. subst r w'. unfold _download, mktemp.
  destruct (negb (truthy_opt url) || negb (truthy (strip (fmt url)))); [cbn; auto|].
  destruct (ydl e) as [outs|info outs]; [cbn; auto|].
  destruct (negb (info_truthy info)); [cbn; auto|].
  destruct outs; cbn; auto.
Qed.

Lemma handle_download_frame (as_audio : bool) (req : Request) (e : Env) (w : World) :
  let name := if as_audio then py "audio.mp3" else py "video.mp4" in
  let r := fst (_handle_download as_audio req e w) in
  let w' := snd (_handle_download as_audio req e w) in
  session_authenticated w' = session_authenticated w /\
  (_PENDING_DOWNLOADS w' = _PENDING_DOWNLOADS w \/
   exists d, (d < tmp_counter w')%nat /\
             _PENDING_DOWNLOADS w'
             = <[token_urlsafe e := (OutFile d 0, name)]> (_PENDING_DOWNLOADS w) /\
             exists body, r = jsonify body 200) /\
  (forall p cd n, r = Stream p cd n ->
     (exists d, p = OutFile d 0) /\ cd = content_disposition_of name /\
     isfile w' p = true /\ n = getsize w' p).
Proof.
  intros name r w'. subst r w'. unfold _handle_download.
  destruct (_prepare_url _) as [u err].
  destruct (truthy_opt err).
  { cbn [fst snd]. split; [reflexivity|]. split; [left; reflexivity|].
    intros; discriminate. }
  destruct (match files req !! py "cookies" with Some _ => _ | None => _ end)
    as [up w1] eqn:E1.
  assert (H1 : _PENDING_DOWNLOADS w1 = _PENDING_DOWNLOADS w /\
               session_authenticated w1 = session_authenticated w).
  { destruct (files req !! py "cookies") as [f|];
      [destruct (truthy (filename f))|];
      unfold mktemp in E1; injection E1 as <- <-; split; reflexivity. }
  destruct H1 as [Hp1 Hs1]. clear E1.
  match goal with
  | |- context [_download u as_audio ?c e w1] =>
      pose proof (download_effect u as_audio c e w1) as Hd;
      destruct (_download u as_audio c e w1) as [[path info] w2]
  end.
  cbn [fst snd] in Hd. destruct Hd as (Hpath & Hp2 & Hs2).
  rewrite Hp1 in Hp2. rewrite Hs1 in Hs2. clear Hp1 Hs1.
  cbv zeta.
  destruct path as [p|].
  2:{ cbn [fst snd]. split; [|split; [left|intros; discriminate]].
      - destruct up as [u0|]; [|exact Hs2].
        destruct (isfile w2 u0); [|exact Hs2].
        destruct (unlink_raises e); exact Hs2.
      - destruct up as [u0|]; [|exact Hp2].
        destruct (isfile w2 u0); [|exact Hp2].
        destruct (unlink_raises e); exact Hp2. }
  destruct Hpath as [Hpath|[Hpath Hc2]]; [discriminate|]. injection Hpath as ->.
  match goal with
  | |- context [negb (isfile ?w4 (OutFile ?d 0))] =>
      assert (H4 : _PENDING_DOWNLOADS w4 = _PENDING_DOWNLOADS w /\
                   session_authenticated w4 = session_authenticated w /\
                   tmp_counter w4 = S (tmp_counter w1));
      [|generalize dependent w4]
  end.
  { destruct up as [u0|].
    - destruct (isfile w2 _ && isfile w2 u0); [destruct (copy_raises e)|];
        match goal with
        | |- context [if isfile ?w3 u0 then _ else _] => destruct (isfile w3 u0)
        end; try destruct (unlink_raises e); repeat split; assumption.
    - repeat split; assumption. }
  intros w4 (Hp4 & Hs4 & Hc4).
  destruct (isfile w4 (OutFile (tmp_counter w1) 0)) eqn:Ef; cbn [negb].
  2:{ cbn [fst snd]. split; [exact Hs4|]. split; [left; exact Hp4|].
      intros; discriminate. }
  destruct (truthy_opt _ && bool_decide _); cbn [fst snd].
  - split; [exact Hs4|]. split; [|intros; discriminate].
    right. exists (tmp_counter w1). cbn [with_pending tmp_counter _PENDING_DOWNLOADS].
    rewrite Hp4, Hc4. split; [lia|]. split; [|eexists; reflexivity].
    destruct as_audio; reflexivity.
  - split; [exact Hs4|]. split; [left; exact Hp4|].
    intros p cd n [= <- <- <-]. split; [eauto|].
    split; [destruct as_audio; reflexivity|]. split; [exact Ef | reflexivity].
Qed.

Lemma login_frame (req : Request) (w : World) :
  fs (snd (login req w)) = fs w /\
  tmp_counter (snd (login req w)) = tmp_counter w /\
  _PENDING_DOWNLOADS (snd (login req w)) = _PENDING_DOWNLOADS w /\
  forall p cd n, fst (login req w) <> Stream p cd n.
Proof.
  unfold login. destruct (str_eqb (method req) (py "GET")).
  - destruct (session_authenticated w); cbn [fst snd]; repeat split; discriminate.
  - destruct (negb _ || negb _); cbn [fst snd]; repeat split; discriminate.
Qed.

Lemma by_token_frame (token : str) (w : World) :
  fs (snd (download_by_token token w)) = fs w /\
  tmp_counter (snd (download_by_token token w)) = tmp_counter w /\
  _PENDING_DOWNLOADS (snd (download_by_token token w))
    = delete token (_PENDING_DOWNLOADS w).
Proof.
  unfold download_by_token, pop.
  destruct (_PENDING_DOWNLOADS w !! token) as [[p0 n0]|]; [|auto].
  destruct (negb _); auto.
Qed.

(** The views a request can end in. *)
Lemma dispatch_cases (req : Request) (e : Env) (w w' : World) (r : Response) :
  full_dispatch_request req e w = Some (r, w') ->
  (require_auth req w = Some r /\ w' = w) \/
  (require_auth req w = None /\
   (login req w = (r, w') \/
    logout w = (r, w') \/
    (index, w) = (r, w') \/
    (exists as_audio : bool,
       endpoint req = Some (if as_audio then py "download_audio"
                            else py "download_video") /\
       _handle_download as_audio req e w = (r, w')) \/
    (endpoint req = Some (py "download_by_token") /\
     download_by_token (default [] (view_args req !! py "token")) w = (r, w')))).
Proof.
  unfold full_dispatch_request.
  destruct (require_auth req w) as [resp|]; [intros [= <- <-]; left; auto|].
  intros H. right. split; [reflexivity|]. revert H. unfold dispatch_request.
  destruct (endpoint req) as [ep|]; [|discriminate].
  destruct (str_eqb ep (py "login")); [intros [= H]; left; exact H|].
  destruct (str_eqb ep (py "logout"));
    [intros [= <- <-]; right; left; reflexivity|].
  destruct (str_eqb ep (py "index"));
    [intros [= <- <-]; right; right; left; reflexivity|].
  destruct (str_eqb ep (py "download_video")) eqn:Ev.
  { apply bool_decide_eq_true_1 in Ev. subst ep. intros [= H].
    do 3 right. left. exists false. auto. }
  destruct (str_eqb ep (py "download_audio")) eqn:Ea.
  { apply bool_decide_eq_true_1 in Ea. subst ep. intros [= H].
    do 3 right. left. exists true. auto. }
  destruct (str_eqb ep (py "download_by_token")) eqn:Et; [|discriminate].
  apply bool_decide_eq_true_1 in Et. subst ep. intros [= H]. do 4 right. auto.
Qed.


(** The gate lets a request to a view other than login and logout through
    only in an authenticated session, and never answers with a stream. *)
Lemma gate_open (req : Request) (w : World) :
  require_auth req w = None ->
  endpoint req ∉ [Some (py "login"); Some (py "logout")] ->
  session_authenticated w = true.
Proof.
  unfold require_auth. intros H Hn.
  rewrite (bool_decide_eq_false_2 _ Hn) in H.
  destruct (session_authenticated w); [reflexivity|].
  destruct (str_eqb (method req) (py "GET")); discriminate.
Qed.

Lemma gate_no_stream (req : Request) (w : World) (p : path) (cd : str) (n : nat) :
  require_auth req w <> Some (Stream p cd n).
Proof.
  unfold require_auth.
  destruct (bool_decide _); [discriminate|].
  destruct (session_authenticated w); [discriminate|].
  destruct (str_eqb (method req) (py "GET")); discriminate.
Qed.

(** A request that is answered with a stream came in an authenticated
    session to one of the three download views, and the file and the
    length it announces are those of the file as the request leaves it. *)
Lemma dispatch_stream (req : Request) (e : Env) (w w' : World)
    (p : path) (cd : str) (n : nat) :
  full_dispatch_request req e w = Some (Stream p cd n, w') ->
  session_authenticated w = true /\
  isfile w' p = true /\ n = getsize w' p /\
  (((exists d, p = OutFile d 0) /\
    (cd = content_disposition_of (py "audio.mp3") \/
     cd = content_disposition_of (py "video.mp4"))) \/
   (exists token name, _PENDING_DOWNLOADS w !! token = Some (p, name) /\
                       cd = content_disposition_of name)).
Proof.
  intros H.
  destruct (dispatch_cases _ _ _ _ _ H)
    as [[E _]|(Hg & [E|[E|[E|[(as_audio & Hep & E)|[Hep E]]]]])].
  - destruct (gate_no_stream _ _ _ _ _ E).
  - destruct (login_frame req w) as (_ & _ & _ & Hn).
    destruct (Hn p cd n). rewrite E. reflexivity.
  - discriminate.
  - discriminate.
  - split.
    { apply (gate_open req w Hg). rewrite Hep, !elem_of_cons, elem_of_nil.
      destruct as_audio; intros [[=]|[[=]|[]]]. }
    destruct (handle_download_frame as_audio req e w) as (_ & _ & Hst).
    rewrite E in Hst. cbn [fst snd] in Hst.
    destruct (Hst p cd n eq_refl) as (Hd & -> & Hf & Hn).
    split; [exact Hf|]. split; [exact Hn|]. left.
    split; [exact Hd|]. destruct as_audio; auto.
  - split.
    { apply (gate_open req w Hg). rewrite Hep, !elem_of_cons, elem_of_nil.
      intros [[=]|[[=]|[]]]. }
    revert E. unfold download_by_token, pop.
    set (token := default [] (view_args req !! py "token")).
    destruct (_PENDING_DOWNLOADS w !! token) as [[p0 name]|] eqn:Et; [|discriminate].
    change (isfile (with_pending (delete token) w) p0) with (isfile w p0).
    destruct (isfile w p0) eqn:Ef; cbn [negb]; [|discriminate].
    intros [= <- <- <- <-]. split; [exact Ef|]. split; [reflexivity|].
    right. exists token, name. auto.
Qed.

(** A request adds at most one token, the one it minted, for the first
    file of an output directory it made, under one of the two fixed names;
    it removes at most the token it was asked for; it changes no other. *)
Lemma dispatch_pending (req : Request) (e : Env) (w w' : World) (r : Response) :
  full_dispatch_request req e w = Some (r, w') ->
  (tmp_counter w <= tmp_counter w')%nat /\
  (forall t p name, _PENDING_DOWNLOADS w' !! t = Some (p, name) ->
     _PENDING_DOWNLOADS w !! t = Some (p, name) \/
     ((exists d, (d < tmp_counter w')%nat /\ p = OutFile d 0) /\
      (name = py "audio.mp3" \/ name = py "video.mp4"))) /\
  (forall t, t <> token_urlsafe e ->
     (endpoint req = Some (py "download_by_token") ->
      t <> default [] (view_args req !! py "token")) ->
     _PENDING_DOWNLOADS w' !! t = _PENDING_DOWNLOADS w !! t).
Proof.
  assert (Hsame : forall w0 : World,
    tmp_counter w0 = tmp_counter w ->
    _PENDING_DOWNLOADS w0 = _PENDING_DOWNLOADS w ->
    (tmp_counter w <= tmp_counter w0)%nat /\
    (forall t p name, _PENDING_DOWNLOADS w0 !! t = Some (p, name) ->
       _PENDING_DOWNLOADS w !! t = Some (p, name) \/
       ((exists d, (d < tmp_counter w0)%nat /\ p = OutFile d 0) /\
        (name = py "audio.mp3" \/ name = py "video.mp4"))) /\
    (forall t, t <> token_urlsafe e ->
       (endpoint req = Some (py "download_by_token") ->
        t <> default [] (view_args req !! py "token")) ->
       _PENDING_DOWNLOADS w0 !! t = _PENDING_DOWNLOADS w !! t)).
  { intros w0 Hc ->. split; [lia|]. split; auto. }
  intros H. change w' with (snd (r, w')).
  destruct (dispatch_cases _ _ _ _ _ H)
    as [[_ ->]|(_ & [E|[E|[E|[(as_audio & _ & E)|[Hep E]]]]])]; try rewrite <- E.
  - apply Hsame; reflexivity.
  - apply Hsame; apply login_frame.
  - apply Hsame; reflexivity.
  - apply Hsame; reflexivity.
  - split; [apply handle_download_files|].
    destruct (handle_download_frame as_audio req e w)
      as (_ & [Ep|(d & Hd & Ep & _)] & _).
    { rewrite Ep. split; auto. }
    rewrite Ep. split.
    + intros t p name. destruct (decide (t = token_urlsafe e)) as [->|Hne].
      * rewrite lookup_insert_eq. intros [= <- <-]. right.
        split; [eauto | destruct as_audio; auto].
      * rewrite lookup_insert_ne by congruence. auto.
    + intros t Ht _. apply lookup_insert_ne. congruence.
  - destruct (by_token_frame (default [] (view_args req !! py "token")) w)
      as (_ & Hc & Hp).
    rewrite Hp. split; [lia|]. split.
    + intros t p name Hl. left.
      destruct (decide (t = default [] (view_args req !! py "token"))) as [->|Hne].
      * rewrite lookup_delete_eq in Hl. discriminate.
      * rewrite lookup_delete_ne in Hl by congruence. exact Hl.
    + intros t _ Ht. apply lookup_delete_ne. specialize (Ht Hep). congruence.
Qed.

(** In every world the application can be in, a token stands for the
    first file of an output directory made earlier, under one of the two
    fixed names. *)
Lemma reachable_pending (w : World) :
  reachable w ->
  forall t p name, _PENDING_DOWNLOADS w !! t = Some (p, name) ->
    (exists d, (d < tmp_counter w)%nat /\ p = OutFile d 0) /\
    (name = py "audio.mp3" \/ name = py "video.mp4").
Proof.
  induction 1 as [w H0|w req e r w' _ IH Hd|w f _ IH|w b _ IH]; intros t p name Ht.
  - rewrite H0, lookup_empty in Ht. discriminate.
  - destruct (dispatch_pending _ _ _ _ _ Hd) as (Hc & Hnew & _).
    destruct (Hnew _ _ _ Ht) as [Ht'|Ht']; [|exact Ht'].
    destruct (IH _ _ _ Ht') as ((d & Hlt & ->) & Hn).
    split; [|exact Hn]. exists d. split; [lia | reflexivity].
  - exact (IH _ _ _ Ht).
  - exact (IH _ _ _ Ht).
Qed.

(** Whatever requests were served since start-up, a response that streams
    a file was asked for in an authenticated session, streams the first
    file of an output directory of the extractor (never the cookie file,
    never an uploaded copy), under the name [audio.mp3] or [video.mp4],
    and announces the length that file has. *)
Theorem served_files_are_downloads
    (req : Request) (e : Env) (w w' : World) (p : path) (cd : str) (n : nat) :
  reachable w ->
  full_dispatch_request req e w = Some (Stream p cd n, w') ->
  session_authenticated w = true /\
  (exists d, p = OutFile d 0) /\
  (cd = content_disposition_of (py "audio.mp3") \/
   cd = content_disposition_of (py "video.mp4")) /\
  isfile w' p = true /\ n = getsize w' p.
Proof.
  intros Hr Hd.
  destruct (dispatch_stream _ _ _ _ _ _ _ Hd) as (Hs & Hf & Hn & H).
  split; [exact Hs|].
  destruct H as [[Hp Hc]|(token & name & Ht & ->)].
  - auto.
  - destruct (reachable_pending w Hr _ _ _ Ht) as ((d & _ & ->) & Hname).
    split; [eexists; reflexivity|]. split; [|split; assumption].
    destruct Hname as [->| ->]; auto.
Qed.

(** A download that waits for its token to be fetched is out of reach of
    the other requests: a request that neither fetches that token nor
    mints the same token again leaves the entry and the file as they
    are. *)
Theorem pending_download_isolated
    (req : Request) (e : Env) (w w' : World) (r : Response)
    (t : str) (p : path) (name : str) :
  reachable w ->
  _PENDING_DOWNLOADS w !! t = Some (p, name) ->
  full_dispatch_request req e w = Some (r, w') ->
  t <> token_urlsafe e ->
  (endpoint req = Some (py "download_by_token") ->
   t <> default [] (view_args req !! py "token")) ->
  _PENDING_DOWNLOADS w' !! t = Some (p, name) /\
  fs w' !! p = fs w !! p.
Proof.
  intros Hr Ht Hd Hne Hfetch. split.
  - destruct (dispatch_pending _ _ _ _ _ Hd) as (_ & _ & Hother).
    rewrite (Hother t Hne Hfetch). exact Ht.
  - destruct (reachable_pending w Hr _ _ _ Ht) as ((d & Hlt & ->) & _).
    change w' with (snd (r, w')).
    destruct (dispatch_cases _ _ _ _ _ Hd)
      as [[_ ->]|(_ & [E|[E|[E|[(as_audio & _ & E)|[_ E]]]]])]; try rewrite <- E.
    + reflexivity.
    + rewrite (proj1 (login_frame req w)). reflexivity.
    + reflexivity.
    + reflexivity.
    + apply (proj2 (handle_download_files as_audio req e w)); [discriminate|].
      intros n Hn. split; [discriminate|]. intros i [= -> _]. lia.
    + rewrite (proj1 (by_token_frame _ w)). reflexivity.
Qed.

(** The body of a streamed response has the length its [Content-Length]
    header announces: read to the end, the chunks of the generator add up
    to that many bytes, and the file is then removed unless [os.unlink]
    raised. *)
Theorem streamed_body_has_content_length
    (req : Request) (e : Env) (w w' : World) (p : path) (cd : str) (n : nat)
    (ur : bool) :
  full_dispatch_request req e w = Some (Stream p cd n, w') ->
  exists chunks w'',
    iterate (S n) ur (_stream_and_cleanup p) w' = (chunks, Closed, w'') /\
    length (concat chunks) = n /\
    Some (concat chunks) = fs w' !! p /\
    (ur = false -> isfile w'' p = false).
Proof.
  intros Hd.
  destruct (dispatch_stream _ _ _ _ _ _ _ Hd) as (_ & Hf & Hn & _).
  apply bool_decide_eq_true_1 in Hf. destruct Hf as [content Hc].
  unfold getsize in Hn. rewrite Hc in Hn. cbn [default] in Hn. subst n.
  destruct (iterate_suspended ur p (S (length content)) content w')
    as (chunks & rest & g & w1 & Ei & Eu & _ & _ & _ & Hcl & Hend).
  destruct (Hend (Nat.lt_succ_diag_r _)) as [-> ->].
  cbn [close] in Hcl. injection Hcl as ->. rewrite app_nil_r in Eu.
  exists chunks, (cleanup p ur w').
  split.
  { unfold _stream_and_cleanup. cbn [iterate next]. rewrite Hc. exact Ei. }
  rewrite <- Eu. split; [reflexivity|]. split; [auto|].
  intros ->. unfold cleanup, isfile. cbn. rewrite lookup_delete_eq.
  apply bool_decide_eq_false_2. intros [? ?]. discriminate.
Qed.

(** ** What a failed download leaves behind *)

Lemma write_outputs_lookup d outs : forall i m j b,
  outs !! j = Some b -> write_outputs d i outs m !! OutFile d (i + j) = Some b.
Proof.
  induction outs as [|b0 outs IH]; intros i m j b Hj; [discriminate|].
  destruct j as [|j].
  - injection Hj as <-. rewrite Nat.add_0_r. apply write_outputs_first.
  - simpl. replace (i + S j)%nat with (S i + j)%nat by lia. apply IH, Hj.
Qed.

(** When the extraction fails (it raises, or returns no metadata, or
    leaves no file) the handler answers 400 and adds no token, and it
    removes nothing of what the extractor wrote: the files of the output
    directory are all still there when the request is over.  Output
    directories are removed only by the generator of a streamed
    response. *)
Theorem failed_download_leaves_outputs
    (as_audio : bool) (req : Request) (e : Env) (w : World) (u : str) :
  _prepare_url (fmt (py_or (form req !! py "url") (Some []))) = (Some u, None) ->
  ydl_succeeds (ydl e) = false ->
  let w' := snd (_handle_download as_audio req e w) in
  let d := match files req !! py "cookies" with
           | Some f => if truthy (filename f) then S (tmp_counter w) else tmp_counter w
           | None => tmp_counter w
           end in
  fst (_handle_download as_audio req e w)
    = jsonify [(py "error",
                JStr (py "Download failed. Check the URL and try again."))] 400 /\
  _PENDING_DOWNLOADS w' = _PENDING_DOWNLOADS w /\
  forall i b, ydl_outputs (ydl e) !! i = Some b -> fs w' !! OutFile d i = Some b.
Proof.
  intros Hp Hfail w' d. subst w' d.
  destruct (handle_download_eval as_audio req e w u Hp) as [Hfs Hr].
  cbv zeta in Hfs, Hr. rewrite Hfail in Hfs, Hr. cbn [andb] in Hfs.
  split; [exact Hr|]. split.
  { destruct (handle_download_frame as_audio req e w)
      as (_ & [E|(d & _ & _ & body & E)] & _); [exact E|].
    cbv zeta in E. rewrite Hr in E. injection E as _ E. lia. }
  intros i b Hi. rewrite Hfs.
  destruct (files req !! py "cookies") as [f|]; [destruct (truthy (filename f))|].
  - destruct (unlink_raises e);
      rewrite ?lookup_delete_ne by discriminate;
      apply (write_outputs_lookup _ _ 0), Hi.
  - apply (write_outputs_lookup _ _ 0), Hi.
  - apply (write_outputs_lookup _ _ 0), Hi.
Qed.

(** ** Prepared URLs are fixed points *)

Lemma rmatch_none i r k s :
  (forall s', ~ matches i r s s') -> rmatch i r k s = None.
Proof.
  intros H. destruct (rmatch i r k s) as [m|] eqn:E; [|reflexivity].
  apply rmatch_sound in E as (s' & Hm & _). destruct (H _ Hm).
Qed.

Lemma search_step i r p x t :
  rmatch i r (fun st => Some (groups st)) (MState p (x :: t) ∅) = None ->
  search_from i r p (x :: t) = search_from i r (Some x) t.
Proof. intros H. simpl. rewrite H. reflexivity. Qed.

Lemma search_here i r p s m :
  rmatch i r (fun st => Some (groups st)) (MState p s ∅) = Some m ->
  search_from i r p s = Some m.
Proof. intros H. destruct s; simpl; rewrite H; reflexivity. Qed.

Lemma matches_Lits_nth i lit : forall s s' k c,
  matches i (Lits lit) s s' -> lit !! k = Some c ->
  exists x, rest s !! k = Some x /\ lit_match i c x = true.
Proof.
  induction lit as [|c0 lit IH]; intros s s' k c H Hk; [discriminate|].
  destruct H as (s1 & (x & t & E & Hx & ->) & H2).
  destruct k as [|k].
  - injection Hk as <-. exists x. rewrite E. auto.
  - destruct (IH _ _ k c H2 Hk) as (y & Hy & Hc). exists y. rewrite E. auto.
Qed.

(** Under [re.I] a literal that is no letter matches itself only. *)
Lemma lit_match_nonletter (c x : N) :
  (c < 65)%N -> lit_match true c x = true -> x = c.
Proof.
  intros Hc. unfold lit_match. rewrite orb_true_iff.
  intros [H|H]; [apply N.eqb_eq, H|].
  cbn [andb] in H. unfold ascii_fold in H.
  destruct ((65 <=? x) && (x <=? 90))%N eqn:E1.
  { apply andb_true_iff in E1 as [?%N.leb_le ?%N.leb_le].
    cbn [existsb] in H. rewrite orb_false_r in H. apply N.eqb_eq in H. lia. }
  destruct ((97 <=? x) && (x <=? 122))%N eqn:E2.
  { apply andb_true_iff in E2 as [?%N.leb_le ?%N.leb_le].
    cbn [existsb] in H. rewrite orb_false_r in H. apply N.eqb_eq in H. lia. }
  destruct ((x =? 304) || (x =? 305))%N;
    [|destruct (x =? 383)%N; [|destruct (x =? 8490)%N; [|discriminate]]];
    cbn [existsb] in H; rewrite orb_false_r in H;
    apply orb_true_iff in H as [H|H]; apply N.eqb_eq in H; lia.
Qed.

Lemma id_char_no_punct (x : N) : is_id_char x -> x <> 46%N /\ x <> 61%N.
Proof. intros H. split; intros ->; vm_compute in H; discriminate. Qed.

Lemma rmatch_Repeat_In_ok i ranges k : forall l p t g,
  Forall (fun x => class_match i ranges x = true) l ->
  rmatch i (Repeat (length l) (In ranges)) k (MState p (l ++ t) g)
    = k (MState (prev_after p l) t g).
Proof.
  induction l as [|x l IH]; intros p t g H; [reflexivity|].
  inversion H as [|? ? Hx Hl]; subst.
  change (rmatch i (Repeat (length (x :: l)) (In ranges)) k (MState p ((x :: l) ++ t) g))
    with (if class_match i ranges x
          then rmatch i (Repeat (length l) (In ranges)) k (MState (Some x) (l ++ t) g)
          else None).
  rewrite Hx, IH by exact Hl. rewrite prev_after_cons. reflexivity.
Qed.

Lemma rmatch_Group_ok i n ranges k l p g :
  Forall (fun x => class_match i ranges x = true) l ->
  rmatch i (Group n (Repeat (length l) (In ranges))) k (MState p l g)
    = k (MState (prev_after p l) [] (<[n := l]> g)).
Proof.
  intros H.
  change (rmatch i (Group n (Repeat (length l) (In ranges))) k (MState p l g))
    with (rmatch i (Repeat (length l) (In ranges))
            (fun s1 => k (MState (prev s1) (rest s1)
                            (<[n := consumed l (rest s1)]> (groups s1))))
            (MState p l g)).
  rewrite <- (app_nil_r l) at 2. rewrite rmatch_Repeat_In_ok by exact H.
  cbn [prev rest groups].
  rewrite <- (app_nil_r l) at 2. rewrite consumed_app. reflexivity.
Qed.

(** A pattern that begins with a literal holding a dot finds nothing in a
    string of id characters. *)
Lemma search_needs_dot r (k : nat) p (s : str) :
  (forall st s', matches true r st s' ->
     exists x, rest st !! k = Some x /\ lit_match true 46 x = true) ->
  Forall is_id_char s -> search_from true r p s = None.
Proof.
  intros Hr Hs. destruct (search_from true r p s) as [m|] eqn:E; [|reflexivity].
  apply search_from_sound in E as (l & s0 & s' & -> & Hm & _).
  apply Hr in Hm as (x & Hx & Hd). cbn [rest] in Hx.
  apply lit_match_nonletter in Hd; [|lia]. subst x.
  apply Forall_app in Hs as [_ Hs].
  destruct (id_char_no_punct _ (Forall_lookup_1 _ _ _ _ Hs Hx)) as [H _].
  congruence.
Qed.

(** Past the text [v=], the rest of the first alternative of [YT_WATCH_RE]
    finds no second [v=] in a string of id characters. *)
Lemma dotstar_v_none r k p (s : str) g :
  Forall is_id_char s ->
  dotstar (rmatch true (Cat WordBoundary (Cat (Str "v=") r)) k) p s g = None.
Proof.
  intros Hs.
  destruct (dotstar _ p s g) as [m|] eqn:E; [|reflexivity].
  apply dotstar_sound in E as (l & t & -> & _ & Hk).
  apply rmatch_sound in Hk as (s' & (s1 & [_ ->] & s2 & HL & _) & _).
  apply (matches_Lits_nth _ _ _ _ 1%nat 61%N) in HL as (x & Hx & Hd);
    [|reflexivity].
  cbn [rest] in Hx.
  apply lit_match_nonletter in Hd; [|lia]. subst x.
  apply Forall_app in Hs as [_ Hs].
  destruct (id_char_no_punct _ (Forall_lookup_1 _ _ _ _ Hs Hx)) as [_ H].
  congruence.
Qed.

Lemma dotstar_cons k p x t g :
  x <> 10%N ->
  dotstar k p (x :: t) g
    = match dotstar k (Some x) t g with
      | Some m => Some m
      | None => k (MState p (x :: t) g)
      end.
Proof. intros H. simpl. rewrite (proj2 (N.eqb_neq x 10) H). reflexivity. Qed.

Ltac canonical_prefix :=
  let P := eval vm_compute in (py "https://www.youtube.com/watch?v=") in
  change (py "https://www.youtube.com/watch?v=") with P; cbn [app].

Lemma search_watch_canonical (id : str) :
  length id = 11%nat -> Forall is_id_char id ->
  re_search YT_WATCH_RE (py "https://www.youtube.com/watch?v=" ++ id)
    = Some {[1%nat := id]}.
Proof.
  intros Hl Hc. unfold re_search, YT_WATCH_RE. cbn [pat_regex pat_ignorecase].
  canonical_prefix.
  do 12 (rewrite search_step by reflexivity).
  apply search_here.
  match goal with
  | |- rmatch true (Alt ?a ?b) ?k ?s = _ =>
      change (rmatch true (Alt a b) k s)
        with (match rmatch true a k s with
              | Some m => Some m
              | None => rmatch true b k s
              end)
  end.
  match goal with
  | |- context [rmatch true (Cat _ (Cat DotStar ?rest)) ?k ?s] =>
      change (rmatch true (Cat (Str "youtube.com/watch?") (Cat DotStar rest)) k s)
        with (dotstar (rmatch true rest k) (Some 63%N) (118 :: 61 :: id)%N ∅)
  end.
  rewrite dotstar_cons by discriminate.
  rewrite dotstar_cons by discriminate.
  rewrite dotstar_v_none by exact Hc.
  match goal with
  | |- context [rmatch true ?r ?k (MState (Some 118%N) ?s ∅)] =>
      change (rmatch true r k (MState (Some 118%N) s ∅))
        with (@None (gmap nat str))
  end.
  match goal with
  | |- context [rmatch true (Cat WordBoundary (Cat _ ?G)) ?k (MState (Some 63%N) ?s ∅)] =>
      change (rmatch true (Cat WordBoundary (Cat (Str "v=") G)) k (MState (Some 63%N) s ∅))
        with (rmatch true G k (MState (Some 61%N) id ∅))
  end.
  rewrite <- Hl. unfold ID_CHAR. rewrite rmatch_Group_ok by exact Hc.
  reflexivity.
Qed.

Lemma search_playlist_canonical (id : str) :
  Forall is_id_char id ->
  re_search YT_PLAYLIST_RE (py "https://www.youtube.com/watch?v=" ++ id) = None.
Proof.
  intros Hc. unfold re_search, YT_PLAYLIST_RE. cbn [pat_regex pat_ignorecase].
  canonical_prefix.
  do 32 (rewrite search_step by reflexivity).
  apply (search_needs_dot _ 7); [|exact Hc].
  intros st s' (s1 & H1 & _).
  apply (matches_Lits_nth _ _ _ _ 7%nat 46%N) in H1; [exact H1 | reflexivity].
Qed.

Lemma strip_canonical (id : str) :
  Forall is_id_char id ->
  strip (py "https://www.youtube.com/watch?v=" ++ id)
    = py "https://www.youtube.com/watch?v=" ++ id.
Proof.
  intros Hc. apply strip_no_space, Forall_app. split.
  - canonical_prefix. repeat (constructor; [reflexivity|]). constructor.
  - eapply Forall_impl; [exact Hc|]. apply id_char_no_space.
Qed.

Lemma prepare_url_canonical (id : str) :
  length id = 11%nat -> Forall is_id_char id ->
  let u := py "https://www.youtube.com/watch?v=" ++ id in
  _prepare_url u = (Some u, None) /\
  _video_id_from_url u = Some id /\
  _is_playlist_url u = false /\
  _is_youtube_url u = true.
Proof.
  intros Hl Hc u.
  assert (Hs : strip u = u) by apply (strip_canonical id Hc).
  assert (Hw : re_search YT_WATCH_RE u = Some {[1%nat := id]})
    by apply (search_watch_canonical id Hl Hc).
  assert (Hp : re_search YT_PLAYLIST_RE u = None)
    by apply (search_playlist_canonical id Hc).
  assert (Ht : truthy u = true) by reflexivity.
  assert (Hid : truthy id = true) by (destruct id; [discriminate | reflexivity]).
  assert (Hg : py_or (group {[1%nat := id]} 1)
                 (py_or (group {[1%nat := id]} 2) (group {[1%nat := id]} 3))
               = Some id).
  { unfold group. rewrite lookup_singleton_eq. unfold py_or at 1.
    cbn [truthy_opt]. rewrite Hid. reflexivity. }
  split; [|split; [|split]].
  - rewrite <- Hs in Hp, Hw. rewrite (prepare_url_video _ _ Hp Hw), Hg. reflexivity.
  - unfold _video_id_from_url. rewrite Ht, Hs, Hw. cbn [negb]. exact Hg.
  - rewrite is_playlist_url_eq by (rewrite Hs; exact Ht). rewrite Hs, Hp.
    apply bool_decide_eq_false_2. intros [? ?]. discriminate.
  - rewrite is_youtube_url_eq by (rewrite Hs; exact Ht). rewrite Hs.
    apply bool_decide_eq_true_2, search_watch_valid. rewrite Hw. eauto.
Qed.

(** The canonical watch URL of an id is a fixed point of [_prepare_url],
    and the id read back from it is the id it was built from. *)
Theorem canonical_url_fixed_point (id : str) :
  length id = 11%nat -> Forall is_id_char id ->
  let u := py "https://www.youtube.com/watch?v=" ++ id in
  _prepare_url u = (Some u, None) /\
  _video_id_from_url u = Some id /\
  _normalize_youtube_url u = Some u /\
  _is_playlist_url u = false.
Proof.
  intros Hl Hc u.
  destruct (prepare_url_canonical id Hl Hc) as (Hp & Hv & Hpl & Hy).
  split; [exact Hp|]. split; [exact Hv|]. split; [|exact Hpl].
  subst u. unfold _normalize_youtube_url. cbv zeta.
  rewrite (strip_canonical id Hc).
  change (truthy (py "https://www.youtube.com/watch?v=" ++ id)) with true.
  cbn [negb orb].
  rewrite (search_playlist_canonical id Hc).
  rewrite bool_decide_eq_false_2 by (intros [? ?]; discriminate).
  rewrite (search_watch_canonical id Hl Hc).
  unfold group. rewrite lookup_singleton_eq. unfold py_or at 1.
  cbn [truthy_opt].
  replace (truthy id) with true by (destruct id; [discriminate | reflexivity]).
  reflexivity.
Qed.

(** What [_prepare_url] returns when it returns a URL: the stripped input,
    for a playlist URL and for a URL in which no video id is found, or the
    canonical URL of the id found. *)
Lemma prepare_url_inv (url u : str) :
  _prepare_url url = (Some u, None) ->
  (u = strip url /\ truthy (strip url) = true /\
   is_Some (re_search YT_VALID_RE (strip url)) /\
   (is_Some (re_search YT_PLAYLIST_RE (strip url)) \/
    re_search YT_WATCH_RE (strip url) = None)) \/
  (exists m id,
     re_search YT_PLAYLIST_RE (strip url) = None /\
     re_search YT_WATCH_RE (strip url) = Some m /\
     py_or (group m 1) (py_or (group m 2) (group m 3)) = Some id /\
     length id = 11%nat /\ Forall is_id_char id /\
     u = py "https://www.youtube.com/watch?v=" ++ id).
Proof.
  intros H.
  destruct (strip url) as [|c t] eqn:E.
  { rewrite (prepare_url_empty _ E) in H. discriminate. }
  assert (Hn : strip url <> []) by (rewrite E; discriminate).
  assert (Ht : truthy (strip url) = true) by (rewrite E; reflexivity).
  rewrite <- E in *. clear E c t.
  destruct (re_search YT_VALID_RE (strip url)) as [mv|] eqn:Ev.
  2:{ rewrite (prepare_url_invalid _ Hn Ev) in H. discriminate. }
  destruct (re_search YT_PLAYLIST_RE (strip url)) as [mp|] eqn:Ep.
  { rewrite prepare_url_playlist in H by (rewrite Ep; eauto).
    injection H as <-. left. split; [reflexivity|]. split; [exact Ht|].
    split; [eauto|]. left. eauto. }
  destruct (re_search YT_WATCH_RE (strip url)) as [mw|] eqn:Ew.
  - rewrite (prepare_url_video _ _ Ep Ew) in H.
    destruct (search_watch_id _ _ Ew) as (id & Hl & Hc & Hg).
    rewrite Hg in H. injection H as <-. right. exists mw, id. auto 7.
  - rewrite prepare_url_other in H
      by (first [exact Hn | rewrite Ev; eauto | exact Ep | exact Ew]).
    injection H as <-. left. split; [reflexivity|]. split; [exact Ht|].
    split; [eauto|]. right. reflexivity.
Qed.

Lemma video_id_from_url_strip (url : str) :
  _video_id_from_url (strip url) = _video_id_from_url url.
Proof.
  unfold _video_id_from_url. rewrite strip_strip.
  destruct (truthy (strip url)) eqn:Ht.
  - rewrite (truthy_strip _ Ht). reflexivity.
  - apply truthy_nil in Ht. rewrite Ht, search_watch_nil.
    destruct (negb (truthy url)); reflexivity.
Qed.

(** [_prepare_url] is idempotent: a URL it returned is returned unchanged
    when it is prepared again; and the prepared URL is a YouTube URL, is a
    playlist URL exactly when the input was, and carries the video id of
    the input. *)
Theorem prepare_url_idempotent (url u : str) :
  _prepare_url url = (Some u, None) ->
  _prepare_url u = (Some u, None) /\
  _is_youtube_url u = true /\
  _is_playlist_url u = _is_playlist_url url /\
  _video_id_from_url u = _video_id_from_url url.
Proof.
  intros H.
  destruct (prepare_url_inv _ _ H)
    as [(-> & Ht & Hv & Hc)|(m & id & Hp & Hw & Hg & Hl & Hc & ->)].
  - assert (Ht' : truthy (strip (strip url)) = true) by (rewrite strip_strip; exact Ht).
    split; [|split; [|split]].
    + destruct Hc as [Hc|Hc].
      * rewrite prepare_url_playlist by (rewrite strip_strip; exact Hc).
        rewrite strip_strip. reflexivity.
      * destruct (re_search YT_PLAYLIST_RE (strip url)) as [mp|] eqn:Ep.
        { rewrite prepare_url_playlist by (rewrite strip_strip, Ep; eauto).
          rewrite strip_strip. reflexivity. }
        rewrite prepare_url_other; rewrite ?strip_strip; try assumption;
          [reflexivity|].
        intros E. rewrite E in Ht. discriminate.
    + rewrite (is_youtube_url_eq _ Ht'), strip_strip.
      apply bool_decide_eq_true_2, Hv.
    + rewrite (is_playlist_url_eq _ Ht'), (is_playlist_url_eq _ Ht), strip_strip.
      reflexivity.
    + apply video_id_from_url_strip.
  - destruct (prepare_url_canonical id Hl Hc) as (Hpu & Hvu & Hplu & Hyu).
    split; [exact Hpu|]. split; [exact Hyu|].
    assert (Ht : truthy (strip url) = true).
    { destruct (strip url); [|reflexivity].
      rewrite search_watch_nil in Hw. discriminate. }
    split.
    + rewrite Hplu, (is_playlist_url_eq _ Ht), Hp. symmetry.
      apply bool_decide_eq_false_2. intros [? ?]. discriminate.
    + rewrite Hvu. unfold _video_id_from_url.
      rewrite (truthy_strip _ Ht), Hw. cbn [negb]. symmetry. exact Hg.
Qed.

(** [_normalize_youtube_url] returns nothing exactly for a blank input and
    for a playlist URL; what it returns is never empty, so that
    [_prepare_url] never falls back to the input, and for a YouTube URL
    it is what [_prepare_url] returns. *)
Theorem normalize_youtube_url_spec (url : str) :
  (_normalize_youtube_url url = None <->
   strip url = [] \/ _is_playlist_url url = true) /\
  (forall n, _normalize_youtube_url url = Some n ->
     n <> [] /\
     (_is_youtube_url url = true -> _prepare_url url = (Some n, None))).
Proof.
  unfold _normalize_youtube_url.
  destruct (truthy (strip url)) eqn:Ht.
  2:{ apply truthy_nil in Ht. rewrite orb_true_r.
      split; [split; auto|]. intros n. discriminate. }
  rewrite (truthy_strip _ Ht), (is_playlist_url_eq _ Ht), (is_youtube_url_eq _ Ht).
  cbn [negb orb].
  assert (Hn : strip url <> []) by (intros E; rewrite E in Ht; discriminate).
  destruct (re_search YT_PLAYLIST_RE (strip url)) as [mp|] eqn:Ep.
  { rewrite bool_decide_eq_true_2 by eauto.
    split; [split; auto|]. intros n. discriminate. }
  rewrite bool_decide_eq_false_2 by (intros [? ?]; discriminate).
  destruct (re_search YT_WATCH_RE (strip url)) as [mw|] eqn:Ew.
  - split.
    { split; [discriminate|]. intros [E|E]; [contradiction | discriminate]. }
    intros n [= <-]. split; [discriminate|]. intros _.
    apply (prepare_url_video _ _ Ep Ew).
  - split.
    { split; [discriminate|]. intros [E|E]; [contradiction | discriminate]. }
    intros n [= <-]. split; [exact Hn|]. intros Hv.
    apply bool_decide_eq_true_1 in Hv.
    apply prepare_url_other; assumption.
Qed.

End App.

(** * Instances and counterexamples *)

Lemma C1_witness :
  exists id, length id = 11%nat /\ Forall is_id_char id /\
    _video_id_from_url ascii_only (py "https://youtu.be/dQw4w9WgXcQ?t=30") = Some id /\
    _prepare_url ascii_only (py "https://youtu.be/dQw4w9WgXcQ?t=30")
      = (Some (py "https://www.youtube.com/watch?v=" ++ id), None).
Proof.
  apply (proj1 (C1_prepare_url_single_video ascii_only)).
  - vm_compute. eexists. reflexivity.
  - vm_compute. reflexivity.
Defined.



Lemma C4_witness :
  let w1 := snd (download_by_token (py "tok") (with_session true sample_world)) in
  exists r1,
    full_dispatch_request ascii_only (fun _ => true)
      (sample_get "download_by_token") sample_env (with_session true sample_world)
      = Some (r1, w1) /\
    full_dispatch_request ascii_only (fun _ => true)
      (sample_get "download_by_token") sample_env w1
      = Some (jsonify [(py "error",
                        JStr (py "Download link invalid or already used."))] 404, w1).
Proof.
  apply (proj2 (proj2 (proj2 (proj2
           (C4_token_single_use ascii_only (fun _ => true) (py "tok")
              (with_session true sample_world)))))); reflexivity.
Defined.

Lemma C5_witness :
  _prepare_url ascii_only (py "https://www.youtube.com/playlist?list=PL123")
    = (Some (py "https://www.youtube.com/playlist?list=PL123"), None).
Proof.
  apply (proj1 (proj2 (C5_playlist_passthrough ascii_only
                         (py "https://www.youtube.com/playlist?list=PL123")
                         ltac:(vm_compute; reflexivity)))).
  vm_compute. reflexivity.
Defined.

(** C5 as stated fails: a playlist URL after a space is prepared to the
    URL without the space, which is not the input. *)
Lemma C5_counterexample :
  exists url,
    url = py " https://www.youtube.com/playlist?list=PL123" /\
    forall tbl,
      _is_playlist_url tbl url = true /\
      _prepare_url tbl url
        = (Some (py "https://www.youtube.com/playlist?list=PL123"), None) /\
      fst (_prepare_url tbl url) <> Some url.
Proof.
  eexists. split; [reflexivity|]. intros tbl.
  split; [|split]; vm_compute; try reflexivity. discriminate.
Qed.



Lemma C8_witness :
  _handle_download ascii_only true (sample_request "https://example.com")
    sample_env sample_world
  = (jsonify [(py "error", JStr (py "Please enter a valid YouTube URL."))] 400,
     sample_world).
Proof.
  apply (proj1 (proj2 (C8_validation_failure_changes_nothing ascii_only true
                         (sample_request "https://example.com") sample_env
                         sample_world (py "Please enter a valid YouTube URL.")
                         ltac:(vm_compute; reflexivity)))).
Defined.

Lemma C9_witness :
  exists p,
    isfile (snd (_handle_download ascii_only false
                   (sample_request "https://youtu.be/dQw4w9WgXcQ")
                   sample_env sample_started)) p = true /\
    fst (_handle_download ascii_only false
           (sample_request "https://youtu.be/dQw4w9WgXcQ") sample_env sample_started)
      = Stream p (py "attachment; filename=" ++ [34%N] ++ py "video.mp4" ++ [34%N])
          (getsize (snd (_handle_download ascii_only false
                           (sample_request "https://youtu.be/dQw4w9WgXcQ")
                           sample_env sample_started)) p).
Proof.
  exact (proj1 (C9_fixed_download_name ascii_only false
                  (sample_request "https://youtu.be/dQw4w9WgXcQ")
                  sample_env sample_started)
           (py "https://www.youtube.com/watch?v=dQw4w9WgXcQ")
           ltac:(vm_compute; reflexivity) ltac:(reflexivity)).
Defined.

Lemma title_for_filename_with_url_id_witness :
  _title_for_filename (Some {[py "title" := Some (py "NA")]}) (py "mp3")
    (Some (py "dQw4w9WgXcQ"))
  <> py "NA" ++ py "." ++ py "mp3".
Proof.
  apply (proj2 (proj2 (proj2
    (title_for_filename_with_url_id ascii_only
       (py "https://youtu.be/dQw4w9WgXcQ?t=30") (py "dQw4w9WgXcQ")
       (Some {[py "title" := Some (py "NA")]}) (py "mp3")
       ltac:(vm_compute; reflexivity))))).
Defined.

Lemma title_for_filename_plain_title_witness :
  _title_for_filename (Some {[py "title" := Some (py "Never Gonna 1987")]})
    (py "mp4") None
  = py "Never Gonna 1987.mp4".
Proof.
  apply (title_for_filename_plain_title
           {[py "title" := Some (py "Never Gonna 1987")]} (py "mp4")
           (py "Never Gonna 1987") None).
  - vm_compute. reflexivity.
  - vm_compute.
    repeat (constructor; [first [left; reflexivity | right; reflexivity]|]).
    constructor.
  - vm_compute. reflexivity.
  - vm_compute. reflexivity.
  - vm_compute. lia.
  - vm_compute. discriminate.
Defined.

Lemma deferred_download_roundtrip_witness :
  exists p,
    isfile (snd (_handle_download ascii_only true
                   (sample_deferred "https://youtu.be/dQw4w9WgXcQ")
                   sample_env sample_world)) p = true /\
    download_by_token (py "t0k3n")
      (snd (_handle_download ascii_only true
              (sample_deferred "https://youtu.be/dQw4w9WgXcQ")
              sample_env sample_world))
    = (Stream p (content_disposition_of (py "audio.mp3"))
         (getsize (snd (_handle_download ascii_only true
                          (sample_deferred "https://youtu.be/dQw4w9WgXcQ")
                          sample_env sample_world)) p),
       with_pending (delete (py "t0k3n"))
         (snd (_handle_download ascii_only true
                 (sample_deferred "https://youtu.be/dQw4w9WgXcQ")
                 sample_env sample_world))) /\
    _PENDING_DOWNLOADS
      (with_pending (delete (py "t0k3n"))
         (snd (_handle_download ascii_only true
                 (sample_deferred "https://youtu.be/dQw4w9WgXcQ")
                 sample_env sample_world))) !! py "t0k3n" = None.
Proof.
  apply (deferred_download_roundtrip ascii_only true
           (sample_deferred "https://youtu.be/dQw4w9WgXcQ") sample_env sample_world
           [(py "download_url",
             JUrl (url_for (py "download_by_token") [(py "token", py "t0k3n")]));
            (py "filename", JStr (py "audio.mp3"))]).
  vm_compute. reflexivity.
Defined.

Lemma auth_gate_state_machine_witness :
  session_authenticated
    (snd (login (fun p => bool_decide (p = py "hunter2"))
            {| method := py "POST"; endpoint := Some (py "login");
               url := py "http://localhost/login";
               form := {[py "password" := py " hunter2 "]};
               args := ∅; files := ∅; view_args := ∅ |}
            sample_world)) = true.
Proof.
  apply (proj1 (proj1 (proj1
    (auth_gate_state_machine (fun p => bool_decide (p = py "hunter2"))
       {| method := py "POST"; endpoint := Some (py "login");
          url := py "http://localhost/login";
          form := {[py "password" := py " hunter2 "]};
          args := ∅; files := ∅; view_args := ∅ |}
       sample_world)
    ltac:(vm_compute; discriminate))
    ltac:(vm_compute; discriminate) ltac:(vm_compute; reflexivity))).
Defined.

Lemma handle_download_cookie_in_use_witness :
  exists opts,
    ydl_calls (snd (_handle_download ascii_only false
                      (sample_request "https://youtu.be/dQw4w9WgXcQ")
                      sample_env sample_world))
      = [(py "https://www.youtube.com/watch?v=dQw4w9WgXcQ", opts)] /\
    cookiefile opts = Some (TempFile 1).
Proof.
  apply (handle_download_cookie_in_use ascii_only false
           (sample_request "https://youtu.be/dQw4w9WgXcQ") sample_env sample_world
           (py "https://www.youtube.com/watch?v=dQw4w9WgXcQ")).
  vm_compute. reflexivity.
Defined.

Lemma unauthenticated_request_is_harmless_witness :
  fs (with_session true sample_world) = fs sample_world /\
  _PENDING_DOWNLOADS (with_session true sample_world) = _PENDING_DOWNLOADS sample_world /\
  ydl_calls (with_session true sample_world) = ydl_calls sample_world /\
  tmp_counter (with_session true sample_world) = tmp_counter sample_world /\
  (session_authenticated (with_session true sample_world) = true ->
   endpoint sample_login = Some (py "login") /\ method sample_login <> py "GET" /\
   sample_hash (strip (fmt (py_or (form sample_login !! py "password") (Some []))))
     = true).
Proof.
  apply (unauthenticated_request_is_harmless ascii_only sample_hash
           sample_login sample_env sample_world (with_session true sample_world)
           (redirect (url_for (py "index") []))).
  - reflexivity.
  - vm_compute. reflexivity.
Defined.

Lemma stream_roundtrip_witness :
  exists chunks w',
    iterate 6 false (_stream_and_cleanup (OutFile 0 0)) sample_waiting
      = (chunks, Closed, w') /\
    concat chunks = py "media" /\
    Forall (fun c => 0 < length c <= _CHUNK)%nat chunks /\
    (forall i c, chunks !! i = Some c -> (S i < length chunks)%nat ->
                 length c = _CHUNK) /\
    fs w' = (if false then fs sample_waiting else delete (OutFile 0 0) (fs sample_waiting)) /\
    _PENDING_DOWNLOADS w' = _PENDING_DOWNLOADS sample_waiting /\
    (false = false -> isfile w' (OutFile 0 0) = false).
Proof.
  apply (stream_roundtrip (OutFile 0 0) (py "media") false 6 sample_waiting).
  - vm_compute. reflexivity.
  - vm_compute. lia.
Defined.

Lemma stream_closed_early_witness :
  exists chunks rest g w1,
    iterate 0 false (_stream_and_cleanup (OutFile 0 0)) sample_waiting
      = (chunks, g, w1) /\
    py "media" = concat chunks ++ rest /\
    (rest <> [] -> Forall (fun c => length c = _CHUNK) chunks) /\
    fs (snd (close false g w1)) = fs sample_waiting /\
    fst (close false g w1) = Closed.
Proof.
  apply (stream_closed_early (OutFile 0 0) (py "media") false 0 sample_waiting).
  vm_compute. reflexivity.
Defined.

Lemma configured_password_logs_in_witness :
  session_authenticated (snd (login sample_hash sample_login sample_world)) = true /\
  fst (login sample_hash sample_login sample_world)
    = redirect (match py_or (args sample_login !! py "next") None with
                | Some n => Location n
                | None => url_for (py "index") []
                end).
Proof.
  apply (configured_password_logs_in sample_hash sample_startup (py "hunter2")
           (py "hunter2" ++ [10%N]) sample_login sample_world).
  - vm_compute. reflexivity.
  - vm_compute. reflexivity.
  - vm_compute. discriminate.
  - vm_compute. reflexivity.
  - right. right. split; vm_compute; reflexivity.
Defined.


Lemma served_files_are_downloads_witness :
  session_authenticated sample_started = true /\
  (exists d, OutFile 1 0 = OutFile d 0) /\
  (content_disposition_of (py "video.mp4") = content_disposition_of (py "audio.mp3") \/
   content_disposition_of (py "video.mp4") = content_disposition_of (py "video.mp4")) /\
  isfile (snd (download_video ascii_only
                 (sample_request "https://youtu.be/dQw4w9WgXcQ")
                 sample_env sample_started)) (OutFile 1 0) = true /\
  5%nat = getsize (snd (download_video ascii_only
                          (sample_request "https://youtu.be/dQw4w9WgXcQ")
                          sample_env sample_started)) (OutFile 1 0).
Proof.
  apply (served_files_are_downloads ascii_only sample_hash
           (sample_request "https://youtu.be/dQw4w9WgXcQ") sample_env sample_started).
  - apply reach_start. reflexivity.
  - vm_compute. reflexivity.
Defined.

Lemma streamed_body_has_content_length_witness :
  exists chunks w'',
    iterate 6 false (_stream_and_cleanup (OutFile 1 0))
      (snd (download_video ascii_only
              (sample_request "https://youtu.be/dQw4w9WgXcQ")
              sample_env sample_started))
      = (chunks, Closed, w'') /\
    length (concat chunks) = 5%nat /\
    Some (concat chunks)
      = fs (snd (download_video ascii_only
                   (sample_request "https://youtu.be/dQw4w9WgXcQ")
                   sample_env sample_started)) !! OutFile 1 0 /\
    (false = false -> isfile w'' (OutFile 1 0) = false).
Proof.
  apply (streamed_body_has_content_length ascii_only sample_hash
           (sample_request "https://youtu.be/dQw4w9WgXcQ") sample_env sample_started
           _ _ (content_disposition_of (py "video.mp4"))).
  vm_compute. reflexivity.
Defined.

Lemma pending_download_isolated_witness :
  _PENDING_DOWNLOADS
    (snd (download_video ascii_only
            (sample_request "https://youtu.be/dQw4w9WgXcQ") sample_env
            (snd (download_audio ascii_only
                    (sample_deferred "https://youtu.be/dQw4w9WgXcQ")
                    {| ydl := ydl sample_env; copy_raises := false;
                       unlink_raises := false; token_urlsafe := py "f1rst" |}
                    sample_started))))
    !! py "f1rst" = Some (OutFile 0 0, py "audio.mp3") /\
  fs (snd (download_video ascii_only
             (sample_request "https://youtu.be/dQw4w9WgXcQ") sample_env
             (snd (download_audio ascii_only
                     (sample_deferred "https://youtu.be/dQw4w9WgXcQ")
                     {| ydl := ydl sample_env; copy_raises := false;
                        unlink_raises := false; token_urlsafe := py "f1rst" |}
                     sample_started))))
    !! OutFile 0 0
  = fs (snd (download_audio ascii_only
               (sample_deferred "https://youtu.be/dQw4w9WgXcQ")
               {| ydl := ydl sample_env; copy_raises := false;
                  unlink_raises := false; token_urlsafe := py "f1rst" |}
               sample_started))
    !! OutFile 0 0.
Proof.
  apply (pending_download_isolated ascii_only sample_hash
           (sample_request "https://youtu.be/dQw4w9WgXcQ") sample_env
           (snd (download_audio ascii_only
                   (sample_deferred "https://youtu.be/dQw4w9WgXcQ")
                   {| ydl := ydl sample_env; copy_raises := false;
                      unlink_raises := false; token_urlsafe := py "f1rst" |}
                   sample_started))
           _
           (fst (download_video ascii_only
                   (sample_request "https://youtu.be/dQw4w9WgXcQ") sample_env
                   (snd (download_audio ascii_only
                           (sample_deferred "https://youtu.be/dQw4w9WgXcQ")
                           {| ydl := ydl sample_env; copy_raises := false;
                              unlink_raises := false; token_urlsafe := py "f1rst" |}
                           sample_started))))).
  - apply (reach_request ascii_only sample_hash sample_started
             (sample_deferred "https://youtu.be/dQw4w9WgXcQ")
             {| ydl := ydl sample_env; copy_raises := false;
                unlink_raises := false; token_urlsafe := py "f1rst" |}
             (fst (download_audio ascii_only
                     (sample_deferred "https://youtu.be/dQw4w9WgXcQ")
                     {| ydl := ydl sample_env; copy_raises := false;
                        unlink_raises := false; token_urlsafe := py "f1rst" |}
                     sample_started))).
    + apply reach_start. reflexivity.
    + vm_compute. reflexivity.
  - vm_compute. reflexivity.
  - vm_compute. reflexivity.
  - vm_compute. discriminate.
  - vm_compute. discriminate.
Defined.

Lemma canonical_url_fixed_point_witness :
  _prepare_url ascii_only (py "https://www.youtube.com/watch?v=" ++ py "dQw4w9WgXcQ")
    = (Some (py "https://www.youtube.com/watch?v=" ++ py "dQw4w9WgXcQ"), None) /\
  _video_id_from_url ascii_only
    (py "https://www.youtube.com/watch?v=" ++ py "dQw4w9WgXcQ")
    = Some (py "dQw4w9WgXcQ") /\
  _normalize_youtube_url ascii_only
    (py "https://www.youtube.com/watch?v=" ++ py "dQw4w9WgXcQ")
    = Some (py "https://www.youtube.com/watch?v=" ++ py "dQw4w9WgXcQ") /\
  _is_playlist_url ascii_only
    (py "https://www.youtube.com/watch?v=" ++ py "dQw4w9WgXcQ") = false.
Proof.
  apply (canonical_url_fixed_point ascii_only (py "dQw4w9WgXcQ")).
  - reflexivity.
  - vm_compute. repeat (constructor; [reflexivity|]). constructor.
Defined.

Lemma prepare_url_idempotent_witness :
  _prepare_url ascii_only (py "https://www.youtube.com/watch?v=dQw4w9WgXcQ")
    = (Some (py "https://www.youtube.com/watch?v=dQw4w9WgXcQ"), None) /\
  _is_youtube_url ascii_only (py "https://www.youtube.com/watch?v=dQw4w9WgXcQ") = true /\
  _is_playlist_url ascii_only (py "https://www.youtube.com/watch?v=dQw4w9WgXcQ")
    = _is_playlist_url ascii_only (py " https://youtu.be/dQw4w9WgXcQ?t=30 ") /\
  _video_id_from_url ascii_only (py "https://www.youtube.com/watch?v=dQw4w9WgXcQ")
    = _video_id_from_url ascii_only (py " https://youtu.be/dQw4w9WgXcQ?t=30 ").
Proof.
  apply (prepare_url_idempotent ascii_only (py " https://youtu.be/dQw4w9WgXcQ?t=30 ")).
  vm_compute. reflexivity.
Defined.

Lemma failed_download_leaves_outputs_witness :
  fst (_handle_download ascii_only false
         (sample_request "https://youtu.be/dQw4w9WgXcQ") sample_failing sample_world)
    = jsonify [(py "error",
                JStr (py "Download failed. Check the URL and try again."))] 400 /\
  _PENDING_DOWNLOADS
    (snd (_handle_download ascii_only false
            (sample_request "https://youtu.be/dQw4w9WgXcQ") sample_failing sample_world))
    = _PENDING_DOWNLOADS sample_world /\
  forall i b, ydl_outputs (ydl sample_failing) !! i = Some b ->
    fs (snd (_handle_download ascii_only false
               (sample_request "https://youtu.be/dQw4w9WgXcQ")
               sample_failing sample_world))
      !! OutFile 2 i = Some b.
Proof.
  apply (failed_download_leaves_outputs ascii_only false
           (sample_request "https://youtu.be/dQw4w9WgXcQ") sample_failing sample_world
           (py "https://www.youtube.com/watch?v=dQw4w9WgXcQ")).
  - vm_compute. reflexivity.
  - reflexivity.
Defined.
